(** * Habit tracker backend: handlers of [main.py] over a document store

    The HTTP handlers of [src/main.py] ([create_habit], [list_habits],
    [delete_habit], [toggle_log], [get_logs]) are embedded as functions that
    take the store handle [db] and return the handler's outcome together
    with the store handle afterwards.  The document store (pymongo) and the
    BSON object ids are collaborators of the program: collections are lists
    of documents in insertion order, and the id codec is an interface. *)

From Stdlib Require Import List String Ascii ZArith NArith Lia Bool.
From Stdlib Require Import Permutation Sorted.
Import ListNotations.

Local Open Scope Z_scope.
Local Open Scope list_scope.

(** ** Collaborators: object ids, time, HTTP errors *)

(** A BSON object id is a 96-bit value; only its identity matters here. *)
Definition ObjectId := N.
Bind Scope N_scope with ObjectId.

(** [datetime.utcnow()] readings are inputs of the handlers, taken at the
    precision the store keeps (a BSON date holds milliseconds). *)
Definition datetime := Z.

(** [ObjectId(id_str)] (which raises on a malformed string) and [str(oid)]. *)
Class BsonObjectId := {
  ObjectId_of_str : string -> option ObjectId;
  str_of_ObjectId : ObjectId -> string
}.

Record HTTPException := { status_code : Z; detail : string }.

Inductive outcome (A : Type) : Type :=
| Return (a : A)
| Raise (e : HTTPException).
Arguments Return {A} a.
Arguments Raise {A} e.

(** ** Request and response models *)

Record HabitIn := {
  name : string;
  description : option string;
  color : string;
  frequency : string;
  days_of_week : option (list Z)
}.

(** [class HabitOut(HabitIn)]: the fields of [HabitIn] plus [id]. *)
Record HabitOut := { fields : HabitIn; id : string }.

Record date := { year : N; month : N; dom : N }.

Record LogIn := { day : date; value : Z }.

(** [{"ok": True}] and [{"checked": ...}]. *)
Record OkOut := { ok : bool }.
Record CheckedOut := { checked : bool }.

(** ** Stored documents *)

Record habit_doc := {
  h_id : ObjectId;
  h_fields : HabitIn;
  h_created_at : datetime;
  h_updated_at : datetime
}.

Record log_doc := {
  l_id : ObjectId;
  l_habit_id : string;
  l_day : string;
  l_value : Z;
  l_created_at : datetime;
  l_updated_at : datetime
}.

(** A log as [get_logs] returns it: [_id] popped, [id] set to its string. *)
Record LogOut := {
  lo_id : string;
  lo_habit_id : string;
  lo_day : string;
  lo_value : Z;
  lo_created_at : datetime;
  lo_updated_at : datetime
}.

(** The store handle: the two collections and the state of the object id
    generator that [insert_one] draws from. *)
Record Database := {
  habit : list habit_doc;
  habitlog : list log_doc;
  next_oid : ObjectId
}.

(** ** [date.isoformat()] : YYYY-MM-DD *)

Definition digit (n : N) : ascii := ascii_of_N (48 + n mod 10).

Definition pad2 (n : N) : string :=
  String (digit (n / 10)) (String (digit n) EmptyString).

Definition pad4 (n : N) : string :=
  String (digit (n / 1000)) (String (digit (n / 100)) (pad2 n)).

Definition isoformat (d : date) : string :=
  String.append (pad4 (year d))
    (String "-" (String.append (pad2 (month d)) (String "-" (pad2 (dom d))))).

(** ** Queries *)

(** The conditions the handlers put on a log's [day]: equality, or
    [{"$gte": start, "$lte": end}] (strings compare bytewise). *)
Inductive day_cond :=
| DayIs (s : string)
| DayBetween (gte lte : string).

(** A filter on [habitlog]: each key is absent or constrains its field. *)
Record log_query := {
  q_id : option ObjectId;
  q_habit_id : option string;
  q_day : option day_cond
}.

Definition holds {A : Type} (test : A -> bool) (c : option A) : bool :=
  match c with
  | None => true
  | Some a => test a
  end.

Definition day_matches (s : string) (c : day_cond) : bool :=
  match c with
  | DayIs s' => String.eqb s s'
  | DayBetween gte lte => String.leb gte s && String.leb s lte
  end.

Definition log_matches (q : log_query) (d : log_doc) : bool :=
  holds (N.eqb (l_id d)) (q_id q)
  && holds (String.eqb (l_habit_id d)) (q_habit_id q)
  && holds (day_matches (l_day d)) (q_day q).

(** A filter on [habit]: [{}] or [{"_id": oid}]. *)
Definition habit_matches (q : option ObjectId) (d : habit_doc) : bool :=
  holds (N.eqb (h_id d)) q.

(** ** Collection operations *)

Section Collection.
Context {D : Type}.

Definition find (m : D -> bool) (c : list D) : list D := filter m c.

Fixpoint find_one (m : D -> bool) (c : list D) : option D :=
  match c with
  | [] => None
  | d :: c' => if m d then Some d else find_one m c'
  end.

(** The collection afterwards and [deleted_count]. *)
Fixpoint delete_one (m : D -> bool) (c : list D) : list D * N :=
  match c with
  | [] => ([], 0%N)
  | d :: c' =>
      if m d then (c', 1%N)
      else let (r, n) := delete_one m c' in (d :: r, n)
  end.

Definition delete_many (m : D -> bool) (c : list D) : list D * N :=
  (filter (fun d => negb (m d)) c, N.of_nat (List.length (filter m c))).

(** The document gets a generated [_id]; the result is the collection
    afterwards, [inserted_id] and the generator's next state. *)
Definition insert_one (mk : ObjectId -> D) (c : list D) (next : ObjectId)
  : list D * ObjectId * ObjectId :=
  (c ++ [mk next], next, N.succ next).

(** [cursor.sort(key, direction)], ties kept in collection order. *)
Fixpoint sort_insert (key : D -> Z) (direction : Z) (d : D) (l : list D)
  : list D :=
  match l with
  | [] => [d]
  | x :: l' =>
      if (if direction <? 0 then key x <=? key d else key d <=? key x)
      then d :: l
      else x :: sort_insert key direction d l'
  end.

Fixpoint sort (key : D -> Z) (direction : Z) (c : list D) : list D :=
  match c with
  | [] => []
  | d :: c' => sort_insert key direction d (sort key direction c')
  end.
End Collection.

(** ** Handlers *)

Definition not_configured : HTTPException :=
  {| status_code := 500; detail := "Database not configured" |}.

Definition with_habit (c : list habit_doc) (d : Database) : Database :=
  {| habit := c; habitlog := habitlog d; next_oid := next_oid d |}.

Definition with_habitlog (c : list log_doc) (d : Database) : Database :=
  {| habit := habit d; habitlog := c; next_oid := next_oid d |}.

Definition with_next_oid (n : ObjectId) (d : Database) : Database :=
  {| habit := habit d; habitlog := habitlog d; next_oid := n |}.

Definition HabitOut_of_doc `{BsonObjectId} (d : habit_doc) : HabitOut :=
  {| fields := h_fields d; id := str_of_ObjectId (h_id d) |}.

Definition LogOut_of_doc `{BsonObjectId} (l : log_doc) : LogOut :=
  {| lo_id := str_of_ObjectId (l_id l);
     lo_habit_id := l_habit_id l;
     lo_day := l_day l;
     lo_value := l_value l;
     lo_created_at := l_created_at l;
     lo_updated_at := l_updated_at l |}.

Definition _coerce_objectid `{BsonObjectId} (id_str : string)
  : outcome ObjectId :=
  match ObjectId_of_str id_str with
  | Some oid => Return oid
  | None => Raise {| status_code := 400; detail := "Invalid ID format" |}
  end.

(** [now1] and [now2] are the two [datetime.utcnow()] readings. *)
Definition create_habit `{BsonObjectId} (db : option Database)
    (habit_in : HabitIn) (now1 now2 : datetime)
  : outcome HabitOut * option Database :=
  match db with
  | None => (Raise not_configured, db)
  | Some d =>
      let to_insert := habit_in in
      let '(c, inserted_id, next) :=
        insert_one (fun oid => {| h_id := oid; h_fields := to_insert;
                                  h_created_at := now1;
                                  h_updated_at := now2 |})
                   (habit d) (next_oid d) in
      (Return {| fields := to_insert; id := str_of_ObjectId inserted_id |},
       Some (with_next_oid next (with_habit c d)))
  end.

Definition list_habits `{BsonObjectId} (db : option Database)
  : outcome (list HabitOut) * option Database :=
  match db with
  | None => (Raise not_configured, db)
  | Some d =>
      let docs := sort h_created_at (-1) (find (habit_matches None) (habit d)) in
      let results :=
        fold_left (fun results d => results ++ [HabitOut_of_doc d]) docs [] in
      (Return results, db)
  end.

Definition delete_habit `{BsonObjectId} (db : option Database)
    (habit_id : string)
  : outcome OkOut * option Database :=
  match db with
  | None => (Raise not_configured, db)
  | Some d =>
      match _coerce_objectid habit_id with
      | Raise e => (Raise e, db)
      | Return oid =>
          let (c, deleted_count) :=
            delete_one (habit_matches (Some oid)) (habit d) in
          let d := with_habit c d in
          if (deleted_count =? 0)%N
          then (Raise {| status_code := 404; detail := "Habit not found" |},
                Some d)
          else
            let (lc, _) :=
              delete_many
                (log_matches {| q_id := None; q_habit_id := Some habit_id;
                                q_day := None |})
                (habitlog d) in
            (Return {| ok := true |}, Some (with_habitlog lc d))
      end
  end.

Definition toggle_log (db : option Database) (habit_id : string)
    (payload : LogIn) (now1 now2 : datetime)
  : outcome CheckedOut * option Database :=
  match db with
  | None => (Raise not_configured, db)
  | Some d =>
      let day_str := isoformat (day payload) in
      let existing :=
        find_one
          (log_matches {| q_id := None; q_habit_id := Some habit_id;
                          q_day := Some (DayIs day_str) |})
          (habitlog d) in
      match existing with
      | Some e =>
          let (c, _) :=
            delete_one
              (log_matches {| q_id := Some (l_id e); q_habit_id := None;
                              q_day := None |})
              (habitlog d) in
          (Return {| checked := false |}, Some (with_habitlog c d))
      | None =>
          let '(c, _, next) :=
            insert_one (fun oid => {| l_id := oid; l_habit_id := habit_id;
                                      l_day := day_str;
                                      l_value := value payload;
                                      l_created_at := now1;
                                      l_updated_at := now2 |})
                       (habitlog d) (next_oid d) in
          (Return {| checked := true |},
           Some (with_next_oid next (with_habitlog c d)))
      end
  end.

(** Python truthiness of an [Optional[str]]: [None] and the empty string
    are false. *)
Definition truthy (o : option string) : bool :=
  match o with
  | Some (String _ _) => true
  | _ => false
  end.

Definition get_logs `{BsonObjectId} (db : option Database)
    (habit_id : string) (start end_ : option string)
  : outcome (list LogOut) * option Database :=
  match db with
  | None => (Raise not_configured, db)
  | Some d =>
      let filt := {| q_id := None; q_habit_id := Some habit_id;
                     q_day := None |} in
      let filt :=
        match start, end_ with
        | Some s, Some e =>
            if truthy start && truthy end_
            then {| q_id := q_id filt; q_habit_id := q_habit_id filt;
                    q_day := Some (DayBetween s e) |}
            else filt
        | _, _ => filt
        end in
      let logs := find (log_matches filt) (habitlog d) in
      (Return (map LogOut_of_doc logs), db)
  end.

(** ** Vocabulary of the properties *)

(** The filter [{"habit_id": habit_id, "day": day_str}] of [toggle_log]. *)
Definition pair_query (habit_id day_str : string) : log_query :=
  {| q_id := None; q_habit_id := Some habit_id; q_day := Some (DayIs day_str) |}.

(** The filter [{"habit_id": habit_id}]. *)
Definition habit_id_query (habit_id : string) : log_query :=
  {| q_id := None; q_habit_id := Some habit_id; q_day := None |}.

(** The filter [{"_id": oid}] on [habitlog]. *)
Definition id_query (oid : ObjectId) : log_query :=
  {| q_id := Some oid; q_habit_id := None; q_day := None |}.

(** A log belongs to the pair (habit id, day string). *)
Definition for_pair (habit_id day_str : string) (l : log_doc) : Prop :=
  l_habit_id l = habit_id /\ l_day l = day_str.

(** Number of log records stored for a pair. *)
Definition count_for (habit_id day_str : string) (c : list log_doc) : nat :=
  List.length (filter (log_matches (pair_query habit_id day_str)) c).

(** What the store guarantees about [_id] in [habitlog]: no two documents
    share one, and the generator has not yet issued the ids still to come. *)
Definition log_ids_ok (d : Database) : Prop :=
  NoDup (map l_id (habitlog d))
  /\ Forall (fun l => (l_id l < next_oid d)%N) (habitlog d).

(** The log record [toggle_log] inserts. *)
Definition new_log (oid : ObjectId) (habit_id : string) (payload : LogIn)
    (now1 now2 : datetime) : log_doc :=
  {| l_id := oid; l_habit_id := habit_id; l_day := isoformat (day payload);
     l_value := value payload; l_created_at := now1; l_updated_at := now2 |}.

(** One call of a sequence of toggles for a fixed habit id and day: the
    payload's value and the two clock readings. *)
Record toggle_call := { t_value : Z; t_now1 : datetime; t_now2 : datetime }.

(** The payload of a call of a sequence of toggles for the day [dy]. *)
Definition payload_of (dy : date) (c : toggle_call) : LogIn :=
  {| day := dy; value := t_value c |}.

(** Consecutive [toggle_log] requests for one (habit id, day): the responses
    in order and the store afterwards. *)
Fixpoint toggle_many (db : option Database) (habit_id : string) (dy : date)
    (calls : list toggle_call)
  : list (outcome CheckedOut) * option Database :=
  match calls with
  | [] => ([], db)
  | c :: calls' =>
      let (r, db1) :=
        toggle_log db habit_id (payload_of dy c) (t_now1 c) (t_now2 c) in
      let (rs, db2) := toggle_many db1 habit_id dy calls' in
      (r :: rs, db2)
  end.

(** One [create_habit] request: the payload and the two clock readings. *)
Record create_call := { c_habit : HabitIn; c_now1 : datetime; c_now2 : datetime }.

(** Consecutive [create_habit] requests. *)
Fixpoint create_many `{BsonObjectId} (db : option Database)
    (calls : list create_call)
  : list (outcome HabitOut) * option Database :=
  match calls with
  | [] => ([], db)
  | c :: calls' =>
      let (r, db1) := create_habit db (c_habit c) (c_now1 c) (c_now2 c) in
      let (rs, db2) := create_many db1 calls' in
      (r :: rs, db2)
  end.

(** The documents a sequence of [create_habit] requests stores, the first
    of them under the id [next]. *)
Fixpoint created_docs (next : ObjectId) (calls : list create_call)
  : list habit_doc :=
  match calls with
  | [] => []
  | c :: calls' =>
      {| h_id := next; h_fields := c_habit c;
         h_created_at := c_now1 c; h_updated_at := c_now2 c |}
      :: created_docs (N.succ next) calls'
  end.

(** Documents ordered by [created_at], newest first. *)
Definition newest_first (docs : list habit_doc) : Prop :=
  StronglySorted (fun a b => h_created_at b <= h_created_at a) docs.

(** ** An object id codec for the examples: 24 hexadecimal digits *)

Definition hex_digit_value (c : ascii) : option N :=
  let n := N_of_ascii c in
  if ((48 <=? n) && (n <=? 57))%N then Some (n - 48)%N
  else if ((97 <=? n) && (n <=? 102))%N then Some (n - 87)%N
  else if ((65 <=? n) && (n <=? 70))%N then Some (n - 55)%N
  else None.

(** ASCII whitespace, which [bytes.fromhex] skips between bytes. *)
Definition is_space (c : ascii) : bool :=
  let n := N_of_ascii c in
  ((n =? 32) || ((9 <=? n) && (n <=? 13)))%N.

(** [bytes.fromhex]: two adjacent hexadecimal digits per byte. *)
Fixpoint fromhex (s : string) : option (list N) :=
  match s with
  | EmptyString => Some []
  | String c s' =>
      if is_space c then fromhex s'
      else
        match hex_digit_value c, s' with
        | Some top, String c2 s'' =>
            match hex_digit_value c2 with
            | Some bot => option_map (cons (16 * top + bot)%N) (fromhex s'')
            | None => None
            end
        | _, _ => None
        end
  end.

(** A binary of at most 12 bytes as an [ObjectId]: 12 bytes stand for their
    big-endian value, shorter binaries (from strings with whitespace) for
    values beyond 96 bits, a range of their own for each length. *)
Definition ObjectId_of_bytes (bs : list N) : ObjectId :=
  ((12 - N.of_nat (List.length bs)) * 2 ^ 96
   + fold_left (fun acc b => 256 * acc + b) bs 0)%N.

Definition hex_char (n : N) : ascii :=
  if (n <? 10)%N then ascii_of_N (48 + n) else ascii_of_N (87 + n).

Fixpoint hex_string (k : nat) (n : N) (acc : string) : string :=
  match k with
  | O => acc
  | S k' => hex_string k' (n / 16)%N (String (hex_char (n mod 16)%N) acc)
  end.

Definition hex_codec : BsonObjectId :=
  {| ObjectId_of_str := fun s =>
       if (String.length s =? 24)%nat
       then option_map ObjectId_of_bytes (fromhex s)
       else None;
     str_of_ObjectId := fun n =>
       hex_string (2 * N.to_nat (12 - n / 2 ^ 96)) (n mod 2 ^ 96)%N
                  EmptyString |}.

(** Sample data for the examples. *)
Definition jan1 : date := {| year := 2024; month := 1; dom := 1 |}.

Definition sample_log (oid : ObjectId) (habit_id day_str : string) (v : Z)
  : log_doc :=
  {| l_id := oid; l_habit_id := habit_id; l_day := day_str; l_value := v;
     l_created_at := 0; l_updated_at := 0 |}.

Definition mk_habit (nm : string) : HabitIn :=
  {| name := nm; description := None; color := "#6366f1";
     frequency := "daily"; days_of_week := None |}.

Definition sample_habit (oid : ObjectId) (nm : string) (t : datetime)
  : habit_doc :=
  {| h_id := oid; h_fields := mk_habit nm;
     h_created_at := t; h_updated_at := t |}.

Definition empty_db : Database :=
  {| habit := []; habitlog := []; next_oid := 0 |}.

Definition payload1 : LogIn := {| day := jan1; value := 1 |}.

(** One log of ("h1", 2024-01-01). *)
Definition one_log_db : Database :=
  {| habit := [];
     habitlog := [sample_log 0 "h1" "2024-01-01" 1];
     next_oid := 1 |}.

(** The store after a first toggle of ("h1", 2024-01-01) with value 1 at
    clock readings 10 and 11 on the empty store. *)
Definition one_log_db_at_10 : Database :=
  {| habit := [];
     habitlog := [{| l_id := 0; l_habit_id := "h1"; l_day := "2024-01-01";
                     l_value := 1; l_created_at := 10; l_updated_at := 11 |}];
     next_oid := 1 |}.

(** Logs of two days of "h1"; the second one is of 2024-01-01. *)
Definition two_days_db : Database :=
  {| habit := [];
     habitlog := [sample_log 4 "h1" "2024-01-02" 1;
                  sample_log 5 "h1" "2024-01-01" 1];
     next_oid := 6 |}.

(** Two logs of the same pair ("h1", 2024-01-01). *)
Definition duplicates_db : Database :=
  {| habit := [];
     habitlog := [sample_log 4 "h1" "2024-01-01" 1;
                  sample_log 5 "h1" "2024-01-01" 1];
     next_oid := 6 |}.

(** Two habits, with ids 1 and 4, and their logs. *)
Definition habits_db : Database :=
  {| habit := [sample_habit 1 "Read" 5; sample_habit 4 "Run" 6];
     habitlog := [sample_log 2 "000000000000000000000001" "2024-01-01" 1;
                  sample_log 3 "000000000000000000000004" "2024-01-01" 1;
                  sample_log 5 "000000000000000000000001" "2024-01-02" 1];
     next_oid := 6 |}.

(** Logs of "h1" in June and in January, and one of "h2". *)
Definition range_db : Database :=
  {| habit := [];
     habitlog := [sample_log 7 "h1" "2024-06-01" 1;
                  sample_log 8 "h1" "2024-01-01" 1;
                  sample_log 9 "h2" "2024-01-01" 1];
     next_oid := 10 |}.


(** A, B, C created at one and the same reading of the clock. *)
Definition tie_calls : list create_call :=
  [ {| c_habit := mk_habit "A"; c_now1 := 5; c_now2 := 5 |};
    {| c_habit := mk_habit "B"; c_now1 := 5; c_now2 := 5 |};
    {| c_habit := mk_habit "C"; c_now1 := 5; c_now2 := 5 |} ].

(** A, B, C created while the clock steps back. *)
Definition back_calls : list create_call :=
  [ {| c_habit := mk_habit "A"; c_now1 := 3; c_now2 := 3 |};
    {| c_habit := mk_habit "B"; c_now1 := 2; c_now2 := 2 |};
    {| c_habit := mk_habit "C"; c_now1 := 1; c_now2 := 1 |} ].

Definition abc_calls : list create_call :=
  [ {| c_habit := mk_habit "A"; c_now1 := 1; c_now2 := 1 |};
    {| c_habit := mk_habit "B"; c_now1 := 2; c_now2 := 2 |};
    {| c_habit := mk_habit "C"; c_now1 := 3; c_now2 := 4 |} ].

Definition call (v : Z) (now1 now2 : datetime) : toggle_call :=
  {| t_value := v; t_now1 := now1; t_now2 := now2 |}.

(** ** The diagnostic endpoint [test_database] *)

(** What [test_database] observes of the store handle: reading the
    attribute [name] (absent, a value, or an exception other than
    [AttributeError], given by its message) and calling
    [list_collection_names()] (an exception's message, or the names). *)
Inductive attribute :=
| AttrMissing
| AttrValue (s : string)
| AttrRaises (msg : string).

Record db_view := {
  name_attr : attribute;
  collection_names : string + list string
}.

(** The response dictionary of [test_database]. *)
Record TestResponse := {
  backend : string;
  database : string;
  database_url : option string;
  database_name : option string;
  connection_status : string;
  collections : list string
}.

Definition set_database (v : string) (r : TestResponse) : TestResponse :=
  {| backend := backend r; database := v; database_url := database_url r;
     database_name := database_name r;
     connection_status := connection_status r;
     collections := collections r |}.

Definition set_database_url (v : string) (r : TestResponse) : TestResponse :=
  {| backend := backend r; database := database r; database_url := Some v;
     database_name := database_name r;
     connection_status := connection_status r;
     collections := collections r |}.

Definition set_database_name (v : string) (r : TestResponse) : TestResponse :=
  {| backend := backend r; database := database r;
     database_url := database_url r; database_name := Some v;
     connection_status := connection_status r;
     collections := collections r |}.

Definition set_connection_status (v : string) (r : TestResponse)
  : TestResponse :=
  {| backend := backend r; database := database r;
     database_url := database_url r; database_name := database_name r;
     connection_status := v; collections := collections r |}.

Definition set_collections (v : list string) (r : TestResponse)
  : TestResponse :=
  {| backend := backend r; database := database r;
     database_url := database_url r; database_name := database_name r;
     connection_status := connection_status r; collections := v |}.

(** Strings stand for their UTF-8 encoding; a character starts at every
    byte that is not a continuation byte (10xxxxxx). *)
Definition is_continuation (c : ascii) : bool :=
  let n := N_of_ascii c in ((128 <=? n) && (n <? 192))%N.

(** The number of characters of a string. *)
Fixpoint char_count (s : string) : nat :=
  match s with
  | EmptyString => O
  | String c s' =>
      if is_continuation c then char_count s' else S (char_count s')
  end.

(** The slice [s[:n]]: the first [n] characters. *)
Fixpoint take_chars (n : nat) (s : string) : string :=
  match s with
  | EmptyString => EmptyString
  | String c s' =>
      if is_continuation c then String c (take_chars n s')
      else
        match n with
        | O => EmptyString
        | S n' => String c (take_chars n' s')
        end
  end.

(** [str(e)[:50]]. *)
Definition first50 (msg : string) : string := take_chars 50 msg.

(** [getenv] is [os.getenv]. *)
Definition test_database (db : option db_view)
    (getenv : string -> option string) : TestResponse :=
  let response :=
    {| backend := "✅ Running";
       database := "❌ Not Available";
       database_url := None;
       database_name := None;
       connection_status := "Not Connected";
       collections := [] |} in
  let response :=
    match db with
    | Some h =>
        let response := set_database "✅ Available" response in
        let response := set_database_url "✅ Configured" response in
        match name_attr h with
        | AttrRaises msg =>
            set_database (String.append "❌ Error: " (first50 msg)) response
        | attr =>
            let response :=
              set_database_name
                (match attr with
                 | AttrValue s => s
                 | _ => "✅ Connected"
                 end) response in
            let response := set_connection_status "Connected" response in
            match collection_names h with
            | inr names =>
                let response := set_collections (firstn 10 names) response in
                set_database "✅ Connected & Working" response
            | inl msg =>
                set_database
                  (String.append "⚠️  Connected but Error: " (first50 msg))
                  response
            end
        end
    | None => set_database "⚠️  Available but not initialized" response
    end in
  let response :=
    set_database_url
      (if truthy (getenv "DATABASE_URL"%string) then "✅ Set" else "❌ Not Set")
      response in
  let response :=
    set_database_name
      (if truthy (getenv "DATABASE_NAME"%string) then "✅ Set" else "❌ Not Set")
      response in
  response.

(** ** Further vocabulary *)

(** Ids of both collections: distinct within a collection, and issued
    before the generator's current state. *)
Definition ids_ok (d : Database) : Prop :=
  NoDup (map h_id (habit d))
  /\ Forall (fun h => (h_id h < next_oid d)%N) (habit d)
  /\ log_ids_ok d.

(** [n] responses whose [checked] alternates, starting with [b]. *)
Fixpoint alternating (b : bool) (n : nat) : list (outcome CheckedOut) :=
  match n with
  | O => []
  | S n' => Return {| checked := b |} :: alternating (negb b) n'
  end.

(** The logs that do not belong to a pair. *)
Definition other_pairs (habit_id day_str : string) (c : list log_doc)
  : list log_doc :=
  filter (fun l => negb (log_matches (pair_query habit_id day_str) l)) c.

(** The ranges Python's [date] allows for its fields (the length of the
    month aside). *)
Definition date_in_range (dy : date) : Prop :=
  (1 <= year dy <= 9999 /\ 1 <= month dy <= 12 /\ 1 <= dom dy <= 31)%N.

(** Chronological order of dates: [a <= b]. *)
Definition date_leb (a b : date) : bool :=
  match (year a ?= year b)%N with
  | Lt => true
  | Gt => false
  | Eq => match (month a ?= month b)%N with
          | Lt => true
          | Gt => false
          | Eq => (dom a <=? dom b)%N
          end
  end.

(** * Properties *)

(** ** The collection operations *)

Section CollectionFacts.
Context {D : Type}.
Implicit Types (m : D -> bool) (c : list D).

Lemma find_one_None m c :
  find_one m c = None <-> (forall x, In x c -> m x = false).
Proof.
  induction c as [|d c IH]; simpl.
  - split; [intros _ x []|reflexivity].
  - destruct (m d) eqn:E.
    + split; [discriminate|]. intros Hall.
      rewrite (Hall d (or_introl eq_refl)) in E. discriminate.
    + rewrite IH. split.
      * intros Hall x [<-|Hx]; auto.
      * intros Hall x Hx. apply Hall. now right.
Qed.

(** [find_one] returns the first matching document in collection order. *)
Lemma find_one_Some m c e :
  find_one m c = Some e ->
  exists l1 l2, c = l1 ++ e :: l2 /\ m e = true
                /\ (forall x, In x l1 -> m x = false).
Proof.
  induction c as [|d c IH]; simpl; [discriminate|].
  destruct (m d) eqn:E.
  - intros [= <-]. exists [], c. repeat split; auto. intros x [].
  - intros Hf. destruct (IH Hf) as (l1 & l2 & -> & He & Hl1).
    exists (d :: l1), l2. repeat split; auto.
    intros x [<-|Hx]; auto.
Qed.

Lemma find_one_exists m c x :
  In x c -> m x = true -> exists e, find_one m c = Some e.
Proof.
  intros Hin Hm. destruct (find_one m c) as [e|] eqn:E; [now exists e|].
  rewrite find_one_None in E. rewrite (E x Hin) in Hm. discriminate.
Qed.

Lemma delete_one_absent m c :
  (forall x, In x c -> m x = false) -> delete_one m c = (c, 0%N).
Proof.
  induction c as [|d c IH]; simpl; intros Hall; [reflexivity|].
  rewrite (Hall d (or_introl eq_refl)).
  rewrite IH; [reflexivity|]. intros x Hx. apply Hall. now right.
Qed.

(** [delete_one] removes the first matching document and only that one. *)
Lemma delete_one_first m l1 e l2 :
  (forall x, In x l1 -> m x = false) -> m e = true ->
  delete_one m (l1 ++ e :: l2) = (l1 ++ l2, 1%N).
Proof.
  induction l1 as [|d l1 IH]; simpl; intros Hall He.
  - now rewrite He.
  - rewrite (Hall d (or_introl eq_refl)).
    rewrite IH; auto.
Qed.

Lemma delete_one_count_0 m c :
  snd (delete_one m c) = 0%N -> fst (delete_one m c) = c.
Proof.
  induction c as [|d c IH]; simpl; [reflexivity|].
  destruct (m d); [discriminate|].
  destruct (delete_one m c) as [r n]; simpl in *.
  intros Hn. now rewrite IH.
Qed.

Lemma delete_one_count_0_iff m c :
  snd (delete_one m c) = 0%N <-> (forall x, In x c -> m x = false).
Proof.
  split.
  - induction c as [|d c IH]; simpl; [intros _ x []|].
    destruct (m d) eqn:E; [discriminate|].
    destruct (delete_one m c) as [r n]; simpl in *.
    intros Hn x [<-|Hx]; auto.
  - intros Hall. now rewrite delete_one_absent.
Qed.

Lemma filter_none m c :
  (forall x, In x c -> m x = false) -> filter m c = [].
Proof.
  induction c as [|d c IH]; simpl; intros Hall; [reflexivity|].
  rewrite (Hall d (or_introl eq_refl)). apply IH.
  intros x Hx. apply Hall. now right.
Qed.

Lemma filter_all m c :
  (forall x, In x c -> m x = true) -> filter m c = c.
Proof.
  induction c as [|d c IH]; simpl; intros Hall; [reflexivity|].
  rewrite (Hall d (or_introl eq_refl)). f_equal. apply IH.
  intros x Hx. apply Hall. now right.
Qed.

(** The results loop of [list_habits] is a [map]. *)
Lemma append_loop {B : Type} (f : D -> B) c (acc : list B) :
  fold_left (fun results d => results ++ [f d]) c acc = acc ++ map f c.
Proof.
  revert acc. induction c as [|d c IH]; intros acc; simpl.
  - now rewrite app_nil_r.
  - rewrite IH, <- app_assoc. reflexivity.
Qed.

Lemma sort_insert_perm key dir (d : D) (l : list D) :
  Permutation (sort_insert key dir d l) (d :: l).
Proof.
  induction l as [|x l IH]; simpl; [reflexivity|].
  destruct (if dir <? 0 then key x <=? key d else key d <=? key x).
  - reflexivity.
  - rewrite IH. apply perm_swap.
Qed.

Lemma sort_perm key dir c : Permutation (sort key dir c) c.
Proof.
  induction c as [|d c IH]; simpl; [reflexivity|].
  rewrite sort_insert_perm. now constructor.
Qed.

Lemma sort_insert_desc key (d : D) (l : list D) :
  StronglySorted (fun a b => key b <= key a) l ->
  StronglySorted (fun a b => key b <= key a) (sort_insert key (-1) d l).
Proof.
  induction 1 as [|x l Hs IH Hx]; simpl.
  - repeat constructor.
  - destruct (key x <=? key d) eqn:E.
    + apply Z.leb_le in E. constructor; [now constructor|].
      constructor; [exact E|].
      rewrite Forall_forall in *. intros y Hy. specialize (Hx y Hy). lia.
    + apply Z.leb_gt in E. constructor; [exact IH|].
      rewrite Forall_forall in *. intros y Hy.
      apply (Permutation_in _ (sort_insert_perm key (-1) d l)) in Hy.
      destruct Hy as [<-|Hy]; [lia|auto].
Qed.

Lemma sort_desc_sorted key c :
  StronglySorted (fun a b => key b <= key a) (sort key (-1) c).
Proof.
  induction c as [|d c IH]; simpl; [constructor|].
  now apply sort_insert_desc.
Qed.

(** Appending a document strictly newer than all others puts it first. *)
Lemma sort_desc_snoc key c (d : D) :
  (forall x, In x c -> key x < key d) ->
  sort key (-1) (c ++ [d]) = d :: sort key (-1) c.
Proof.
  induction c as [|x c IH]; simpl; intros Hall; [reflexivity|].
  rewrite IH by (intros y Hy; apply Hall; now right).
  simpl. specialize (Hall x (or_introl eq_refl)).
  destruct (key d <=? key x) eqn:E; [apply Z.leb_le in E; lia|reflexivity].
Qed.
End CollectionFacts.

(** ** Queries on [habitlog] *)

Lemma pair_query_matches habit_id day_str l :
  log_matches (pair_query habit_id day_str) l = true
  <-> for_pair habit_id day_str l.
Proof.
  unfold log_matches, for_pair; simpl.
  rewrite andb_true_iff, !String.eqb_eq. reflexivity.
Qed.

Lemma pair_query_misses habit_id day_str l :
  log_matches (pair_query habit_id day_str) l = false
  <-> ~ for_pair habit_id day_str l.
Proof.
  rewrite <- pair_query_matches.
  destruct (log_matches _ l); split; intros; congruence.
Qed.

Lemma id_query_matches oid l :
  log_matches (id_query oid) l = (l_id l =? oid)%N.
Proof. unfold log_matches; simpl. now rewrite !andb_true_r. Qed.

Lemma habit_id_query_matches habit_id l :
  log_matches (habit_id_query habit_id) l = String.eqb (l_habit_id l) habit_id.
Proof. unfold log_matches; simpl. now rewrite andb_true_r. Qed.

Lemma log_matches_habit_id q habit_id l :
  q_habit_id q = Some habit_id ->
  log_matches q l = true -> String.eqb (l_habit_id l) habit_id = true.
Proof.
  unfold log_matches. intros ->. simpl.
  rewrite !andb_true_iff. tauto.
Qed.

(** With distinct ids, the filter [{"_id": existing["_id"]}] selects the
    document [existing] itself. *)
Lemma id_query_first l1 e l2 :
  NoDup (map l_id (l1 ++ e :: l2)) ->
  forall x, In x l1 -> log_matches (id_query (l_id e)) x = false.
Proof.
  intros Hnd x Hx. rewrite id_query_matches. apply N.eqb_neq. intros Heq.
  rewrite map_app in Hnd. simpl in Hnd.
  apply NoDup_remove_2 in Hnd. apply Hnd.
  apply in_or_app. left. rewrite <- Heq. now apply in_map.
Qed.

Lemma count_for_app habit_id day_str c1 c2 :
  count_for habit_id day_str (c1 ++ c2)
  = (count_for habit_id day_str c1 + count_for habit_id day_str c2)%nat.
Proof. unfold count_for. now rewrite filter_app, length_app. Qed.

Lemma count_for_zero habit_id day_str c :
  count_for habit_id day_str c = 0%nat
  <-> (forall x, In x c -> log_matches (pair_query habit_id day_str) x = false).
Proof.
  unfold count_for. split.
  - intros Hlen x Hx.
    destruct (log_matches (pair_query habit_id day_str) x) eqn:E; [|reflexivity].
    assert (Hin : In x (filter (log_matches (pair_query habit_id day_str)) c))
      by (apply filter_In; auto).
    destruct (filter _ c); [destruct Hin|discriminate].
  - intros Hall. now rewrite filter_none.
Qed.

Lemma count_for_cons_hit habit_id day_str e c :
  log_matches (pair_query habit_id day_str) e = true ->
  count_for habit_id day_str (e :: c) = S (count_for habit_id day_str c).
Proof. unfold count_for; simpl. now intros ->. Qed.

(** ** The two branches of [toggle_log] *)

Lemma toggle_log_absent d habit_id payload now1 now2 :
  (forall x, In x (habitlog d) ->
     log_matches (pair_query habit_id (isoformat (day payload))) x = false) ->
  toggle_log (Some d) habit_id payload now1 now2
  = (Return {| checked := true |},
     Some {| habit := habit d;
             habitlog := habitlog d
                         ++ [new_log (next_oid d) habit_id payload now1 now2];
             next_oid := N.succ (next_oid d) |}).
Proof.
  intros Hnone. unfold toggle_log.
  apply find_one_None in Hnone. unfold pair_query in Hnone.
  rewrite Hnone. reflexivity.
Qed.

Lemma toggle_log_present d habit_id payload now1 now2 l1 e l2 :
  NoDup (map l_id (habitlog d)) ->
  habitlog d = l1 ++ e :: l2 ->
  (forall x, In x l1 ->
     log_matches (pair_query habit_id (isoformat (day payload))) x = false) ->
  log_matches (pair_query habit_id (isoformat (day payload))) e = true ->
  toggle_log (Some d) habit_id payload now1 now2
  = (Return {| checked := false |},
     Some {| habit := habit d; habitlog := l1 ++ l2;
             next_oid := next_oid d |}).
Proof.
  intros Hnd Hsplit Hl1 He. unfold toggle_log.
  assert (Hfind : find_one
            (log_matches (pair_query habit_id (isoformat (day payload))))
            (habitlog d) = Some e).
  { rewrite Hsplit. clear Hsplit Hnd.
    induction l1 as [|x l1 IH]; simpl.
    - now rewrite He.
    - rewrite (Hl1 x (or_introl eq_refl)). apply IH.
      intros y Hy. apply Hl1. now right. }
  unfold pair_query in Hfind. rewrite Hfind.
  rewrite Hsplit in Hnd |- *.
  change {| q_id := Some (l_id e); q_habit_id := None; q_day := None |}
    with (id_query (l_id e)).
  rewrite delete_one_first.
  - reflexivity.
  - now apply id_query_first with (l2 := l2).
  - rewrite id_query_matches. apply N.eqb_refl.
Qed.

(** The first log of a pair, when there is one. *)
Lemma first_for_pair habit_id day_str c :
  (exists x, In x c /\ for_pair habit_id day_str x) ->
  exists l1 e l2,
    c = l1 ++ e :: l2
    /\ log_matches (pair_query habit_id day_str) e = true
    /\ (forall x, In x l1 ->
          log_matches (pair_query habit_id day_str) x = false).
Proof.
  intros (x & Hin & Hp). apply pair_query_matches in Hp.
  destruct (find_one_exists _ _ _ Hin Hp) as [e He].
  destruct (find_one_Some _ _ _ He) as (l1 & l2 & ? & ? & ?).
  now exists l1, e, l2.
Qed.

Lemma log_ids_ok_insert d l :
  log_ids_ok d -> l_id l = next_oid d ->
  log_ids_ok {| habit := habit d; habitlog := habitlog d ++ [l];
                next_oid := N.succ (next_oid d) |}.
Proof.
  intros [Hnd Hlt] Hid. unfold log_ids_ok; simpl. split.
  - rewrite map_app; simpl. rewrite Hid.
    apply Permutation_NoDup with (l := next_oid d :: map l_id (habitlog d)).
    + apply Permutation_cons_append.
    + constructor; [|exact Hnd].
      intros Hin. apply in_map_iff in Hin. destruct Hin as (x & Hx & Hin).
      rewrite Forall_forall in Hlt. specialize (Hlt x Hin). lia.
  - apply Forall_app. split.
    + eapply Forall_impl; [|exact Hlt]. simpl. intros; lia.
    + constructor; [lia|constructor].
Qed.

Lemma log_ids_ok_remove d l1 e l2 :
  log_ids_ok d -> habitlog d = l1 ++ e :: l2 ->
  log_ids_ok {| habit := habit d; habitlog := l1 ++ l2;
                next_oid := next_oid d |}.
Proof.
  intros [Hnd Hlt] Hsplit. unfold log_ids_ok; simpl.
  rewrite Hsplit in Hnd, Hlt. split.
  - rewrite map_app in *. simpl in Hnd. now apply NoDup_remove_1 in Hnd.
  - apply Forall_app in Hlt. destruct Hlt as [H1 H2].
    apply Forall_app. split; [exact H1|]. now inversion H2.
Qed.

Lemma new_log_matches oid habit_id payload now1 now2 :
  log_matches (pair_query habit_id (isoformat (day payload)))
              (new_log oid habit_id payload now1 now2) = true.
Proof. apply pair_query_matches. now split. Qed.

(** What one toggle does to the number of logs of its pair, when the pair
    has at most one log. *)
Lemma toggle_log_flip d habit_id payload now1 now2 :
  log_ids_ok d ->
  (count_for habit_id (isoformat (day payload)) (habitlog d) <= 1)%nat ->
  exists b d',
    toggle_log (Some d) habit_id payload now1 now2
    = (Return {| checked := b |}, Some d')
    /\ log_ids_ok d'
    /\ habit d' = habit d
    /\ count_for habit_id (isoformat (day payload)) (habitlog d)
       = (if b then 0 else 1)%nat
    /\ count_for habit_id (isoformat (day payload)) (habitlog d')
       = (if b then 1 else 0)%nat.
Proof.
  intros Hok Hle.
  set (ds := isoformat (day payload)) in *.
  destruct (count_for habit_id ds (habitlog d)) as [|n] eqn:Hc.
  - pose proof (proj1 (count_for_zero _ _ _) Hc) as Hnone.
    exists true. eexists. split; [now apply toggle_log_absent|].
    split; [now apply log_ids_ok_insert|]. split; [reflexivity|].
    split; [reflexivity|]. simpl.
    rewrite count_for_app, Hc. unfold count_for; simpl.
    unfold ds. now rewrite new_log_matches.
  - assert (Hex : exists x, In x (habitlog d) /\ for_pair habit_id ds x).
    { unfold count_for in Hc.
      destruct (filter (log_matches (pair_query habit_id ds)) (habitlog d))
        as [|x r] eqn:Hf; [discriminate|].
      assert (Hin : In x (filter (log_matches (pair_query habit_id ds))
                                 (habitlog d))) by (rewrite Hf; now left).
      apply filter_In in Hin. exists x. split; [tauto|].
      now apply pair_query_matches. }
    destruct (first_for_pair _ _ _ Hex) as (l1 & e & l2 & Hsplit & He & Hl1).
    exists false. eexists.
    split; [apply (toggle_log_present d habit_id payload now1 now2 l1 e l2);
            auto; apply Hok|].
    split; [now apply (log_ids_ok_remove d l1 e l2)|].
    split; [reflexivity|]. simpl.
    rewrite Hsplit, count_for_app, (count_for_cons_hit _ _ _ _ He) in Hc.
    rewrite count_for_app.
    pose proof (proj2 (count_for_zero habit_id ds l1) Hl1) as H0.
    split; lia.
Qed.

(** ** Toggle *)

Example isoformat_jan1 : isoformat jan1 = "2024-01-01"%string.
Proof. reflexivity. Qed.

(** C2. A single [toggle_log habit_id payload] looks up a log for the exact
    pair (habit id, day).  When the store holds no log of the pair, it
    inserts the record {habit_id, day, value, created_at, updated_at} (with
    a generated id) and answers [checked = true].  When the store holds a
    log of the pair, it deletes the first such log, and nothing else, and
    answers [checked = false]. *)
Theorem toggle_log_single d habit_id payload now1 now2 :
  ((forall x, In x (habitlog d)
              -> ~ for_pair habit_id (isoformat (day payload)) x) ->
   toggle_log (Some d) habit_id payload now1 now2
   = (Return {| checked := true |},
      Some {| habit := habit d;
              habitlog := habitlog d
                ++ [{| l_id := next_oid d; l_habit_id := habit_id;
                       l_day := isoformat (day payload);
                       l_value := value payload;
                       l_created_at := now1; l_updated_at := now2 |}];
              next_oid := N.succ (next_oid d) |}))
  /\ (NoDup (map l_id (habitlog d)) ->
      (exists x, In x (habitlog d)
                 /\ for_pair habit_id (isoformat (day payload)) x) ->
      exists l1 e l2,
        habitlog d = l1 ++ e :: l2
        /\ for_pair habit_id (isoformat (day payload)) e
        /\ (forall x, In x l1
                      -> ~ for_pair habit_id (isoformat (day payload)) x)
        /\ toggle_log (Some d) habit_id payload now1 now2
           = (Return {| checked := false |},
              Some {| habit := habit d; habitlog := l1 ++ l2;
                      next_oid := next_oid d |})).
Proof.
  split.
  - intros Hnone. apply toggle_log_absent.
    intros x Hx. apply pair_query_misses. now apply Hnone.
  - intros Hnd Hex.
    destruct (first_for_pair _ _ _ Hex) as (l1 & e & l2 & Hsplit & He & Hl1).
    exists l1, e, l2. split; [exact Hsplit|].
    split; [now apply pair_query_matches|].
    split; [intros x Hx; apply pair_query_misses; now apply Hl1|].
    now apply toggle_log_present with (e := e).
Qed.

Lemma toggle_log_single_witness :
  toggle_log (Some empty_db) "h1" payload1 10 11
  = (Return {| checked := true |},
     Some {| habit := [];
             habitlog := [{| l_id := 0; l_habit_id := "h1";
                             l_day := "2024-01-01"; l_value := 1;
                             l_created_at := 10; l_updated_at := 11 |}];
             next_oid := 1 |})
  /\ exists l1 e l2,
       habitlog two_days_db = l1 ++ e :: l2
       /\ for_pair "h1" "2024-01-01" e
       /\ (forall x, In x l1 -> ~ for_pair "h1" "2024-01-01" x)
       /\ toggle_log (Some two_days_db) "h1" payload1 10 11
          = (Return {| checked := false |},
             Some {| habit := []; habitlog := l1 ++ l2; next_oid := 6 |}).
Proof.
  split.
  - apply (proj1 (toggle_log_single empty_db "h1" payload1 10 11)).
    intros x [].
  - apply (proj2 (toggle_log_single two_days_db "h1" payload1 10 11)).
    + simpl. repeat constructor; simpl; intuition discriminate.
    + exists (sample_log 5 "h1" "2024-01-01" 1). simpl. split.
      * right. left. reflexivity.
      * split; reflexivity.
Defined.

(** C10. When the store holds n >= 1 log records for a (habit id, day)
    pair, one [toggle_log] call for the pair deletes exactly one of them,
    the one its lookup finds (the first in the collection), through that
    record's own id; it answers [checked = false] and n - 1 records of the
    pair remain. *)
Theorem toggle_log_duplicates d habit_id payload now1 now2 n :
  NoDup (map l_id (habitlog d)) ->
  count_for habit_id (isoformat (day payload)) (habitlog d) = S n ->
  exists l1 e l2 d',
    habitlog d = l1 ++ e :: l2
    /\ find_one
         (log_matches (pair_query habit_id (isoformat (day payload))))
         (habitlog d)
       = Some e
    /\ toggle_log (Some d) habit_id payload now1 now2
       = (Return {| checked := false |}, Some d')
    /\ habitlog d' = fst (delete_one (log_matches (id_query (l_id e)))
                                     (habitlog d))
    /\ habitlog d' = l1 ++ l2
    /\ habit d' = habit d
    /\ count_for habit_id (isoformat (day payload)) (habitlog d') = n
    /\ S (List.length (habitlog d')) = List.length (habitlog d).
Proof.
  intros Hnd Hc. set (day_str := isoformat (day payload)) in *.
  destruct (find_one (log_matches (pair_query habit_id day_str)) (habitlog d))
    as [e|] eqn:Hf.
  - destruct (find_one_Some _ _ _ Hf) as (l1 & l2 & Hsplit & He & Hl1).
    exists l1, e, l2. eexists. split; [exact Hsplit|]. split; [reflexivity|].
    split; [now apply (toggle_log_present d habit_id payload now1 now2 l1 e l2)|].
    simpl. split.
    { rewrite Hsplit, delete_one_first; [reflexivity| |].
      - apply id_query_first with (l2 := l2). now rewrite <- Hsplit.
      - rewrite id_query_matches. apply N.eqb_refl. }
    split; [reflexivity|]. split; [reflexivity|].
    rewrite Hsplit, count_for_app, (count_for_cons_hit _ _ _ _ He) in Hc.
    pose proof (proj2 (count_for_zero habit_id day_str l1) Hl1) as H0.
    rewrite Hsplit, count_for_app, !length_app. simpl. split; lia.
  - rewrite find_one_None in Hf. apply count_for_zero in Hf.
    rewrite Hf in Hc. discriminate.
Qed.

Lemma toggle_log_duplicates_witness :
  exists l1 e l2 d',
    habitlog duplicates_db = l1 ++ e :: l2
    /\ d' = {| habit := []; habitlog := [sample_log 5 "h1" "2024-01-01" 1];
               next_oid := 6 |}
    /\ toggle_log (Some duplicates_db) "h1" payload1 10 11
       = (Return {| checked := false |}, Some d')
    /\ count_for "h1" "2024-01-01" (habitlog d') = 1%nat.
Proof.
  destruct (toggle_log_duplicates duplicates_db "h1" payload1 10 11 1%nat)
    as (l1 & e & l2 & d' & Hs & _ & Ht & Hd & _ & Hh & Hc & _).
  - simpl. repeat constructor; simpl; intuition discriminate.
  - reflexivity.
  - exists l1, e, l2, d'. split; [exact Hs|]. split; [|split; assumption].
    destruct d' as [h c nx]. simpl in *. inversion Ht. reflexivity.
Defined.

(** C1, the claim as stated fails when a log pre-existed.  A first toggle
    (value 1) on the empty store creates the log of the pair.  The next two
    consecutive toggles (value 7) answer [false] then [true], but the log
    collection does not return to what it was before them: the record now
    stored is a new one, with another id and value 7 instead of 1. *)
Lemma second_pair_of_toggles_replaces_record :
  toggle_many (Some empty_db) "h1" jan1 [call 1 10 11]
  = ([Return {| checked := true |}], Some one_log_db_at_10)
  /\ toggle_many (Some one_log_db_at_10) "h1" jan1 [call 7 20 21; call 7 30 31]
     = ([Return {| checked := false |}; Return {| checked := true |}],
        Some {| habit := [];
                habitlog := [{| l_id := 1; l_habit_id := "h1";
                                l_day := "2024-01-01"; l_value := 7;
                                l_created_at := 30; l_updated_at := 31 |}];
                next_oid := 2 |})
  /\ habitlog one_log_db_at_10
     <> [{| l_id := 1; l_habit_id := "h1"; l_day := "2024-01-01";
            l_value := 7; l_created_at := 30; l_updated_at := 31 |}]
  /\ map l_value (habitlog one_log_db_at_10) = [1]
  /\ map l_value [{| l_id := 1; l_habit_id := "h1"; l_day := "2024-01-01";
                     l_value := 7; l_created_at := 30; l_updated_at := 31 |}]
     = [7].
Proof.
  split; [reflexivity|]. split; [reflexivity|].
  split; [discriminate|]. split; reflexivity.
Qed.

(** C1, amended.  Two consecutive toggles of one (habit id, day):
    - when no log of the pair pre-existed, they answer [true] then [false]
      and leave the log collection (and the habits) exactly as before;
    - when exactly one log of the pair pre-existed, they answer [false] then
      [true]; that log is gone, every other log is kept, and the pair has
      exactly one log again: a newly inserted record carrying a fresh id and
      the second call's value and timestamps. *)
Theorem toggle_log_twice d habit_id dy c1 c2 :
  log_ids_ok d ->
  (count_for habit_id (isoformat dy) (habitlog d) = 0%nat ->
   exists d2,
     toggle_many (Some d) habit_id dy [c1; c2]
     = ([Return {| checked := true |}; Return {| checked := false |}],
        Some d2)
     /\ habitlog d2 = habitlog d /\ habit d2 = habit d)
  /\ (count_for habit_id (isoformat dy) (habitlog d) = 1%nat ->
      exists l1 e l2 d2,
        habitlog d = l1 ++ e :: l2
        /\ for_pair habit_id (isoformat dy) e
        /\ toggle_many (Some d) habit_id dy [c1; c2]
           = ([Return {| checked := false |}; Return {| checked := true |}],
              Some d2)
        /\ habitlog d2
           = (l1 ++ l2)
             ++ [new_log (next_oid d) habit_id (payload_of dy c2)
                         (t_now1 c2) (t_now2 c2)]
        /\ habit d2 = habit d
        /\ count_for habit_id (isoformat dy) (habitlog d2) = 1%nat).
Proof.
  intros Hok. set (day_str := isoformat dy).
  set (p1 := payload_of dy c1). set (p2 := payload_of dy c2).
  split; intros Hc.
  - pose proof (proj1 (count_for_zero _ _ _) Hc) as Hnone.
    assert (E1 : toggle_log (Some d) habit_id p1 (t_now1 c1) (t_now2 c1)
                 = (Return {| checked := true |},
                    Some {| habit := habit d;
                            habitlog := habitlog d
                              ++ [new_log (next_oid d) habit_id p1
                                          (t_now1 c1) (t_now2 c1)];
                            next_oid := N.succ (next_oid d) |}))
      by (apply toggle_log_absent; exact Hnone).
    assert (E2 : toggle_log
                   (Some {| habit := habit d;
                            habitlog := habitlog d
                              ++ [new_log (next_oid d) habit_id p1
                                          (t_now1 c1) (t_now2 c1)];
                            next_oid := N.succ (next_oid d) |})
                   habit_id p2 (t_now1 c2) (t_now2 c2)
                 = (Return {| checked := false |},
                    Some {| habit := habit d; habitlog := habitlog d ++ [];
                            next_oid := N.succ (next_oid d) |})).
    { apply toggle_log_present
        with (l1 := habitlog d) (l2 := [])
             (e := new_log (next_oid d) habit_id p1 (t_now1 c1) (t_now2 c1));
        simpl.
      - apply (log_ids_ok_insert d _ Hok). reflexivity.
      - reflexivity.
      - exact Hnone.
      - apply (new_log_matches _ _ p1). }
    eexists. cbn [toggle_many]. fold p1 p2. rewrite E1, E2.
    split; [reflexivity|]. simpl. now rewrite app_nil_r.
  - assert (Hex : exists x, In x (habitlog d) /\ for_pair habit_id day_str x).
    { destruct (find_one (log_matches (pair_query habit_id day_str))
                  (habitlog d)) as [e|] eqn:Hf.
      - destruct (find_one_Some _ _ _ Hf) as (l1 & l2 & Hs & He & _).
        exists e. split; [rewrite Hs; apply in_elt|].
        now apply pair_query_matches.
      - rewrite find_one_None in Hf. apply count_for_zero in Hf.
        rewrite Hf in Hc. discriminate. }
    destruct (first_for_pair _ _ _ Hex) as (l1 & e & l2 & Hsplit & He & Hl1).
    assert (Hl2 : forall x, In x l2 ->
                    log_matches (pair_query habit_id day_str) x = false).
    { apply count_for_zero.
      rewrite Hsplit, count_for_app, (count_for_cons_hit _ _ _ _ He) in Hc.
      lia. }
    assert (E1 : toggle_log (Some d) habit_id p1 (t_now1 c1) (t_now2 c1)
                 = (Return {| checked := false |},
                    Some {| habit := habit d; habitlog := l1 ++ l2;
                            next_oid := next_oid d |}))
      by (apply toggle_log_present with (e := e); auto; apply Hok).
    assert (E2 : toggle_log
                   (Some {| habit := habit d; habitlog := l1 ++ l2;
                            next_oid := next_oid d |})
                   habit_id p2 (t_now1 c2) (t_now2 c2)
                 = (Return {| checked := true |},
                    Some {| habit := habit d;
                            habitlog := (l1 ++ l2)
                              ++ [new_log (next_oid d) habit_id p2
                                          (t_now1 c2) (t_now2 c2)];
                            next_oid := N.succ (next_oid d) |})).
    { apply (toggle_log_absent
               {| habit := habit d; habitlog := l1 ++ l2;
                  next_oid := next_oid d |}).
      simpl. intros x Hx. apply in_app_or in Hx. destruct Hx; auto. }
    exists l1, e, l2. eexists. split; [exact Hsplit|].
    split; [now apply pair_query_matches|].
    cbn [toggle_many]. fold p1 p2. rewrite E1, E2.
    split; [reflexivity|]. simpl. split; [reflexivity|].
    split; [reflexivity|].
    rewrite !count_for_app.
    rewrite (proj2 (count_for_zero habit_id day_str l1) Hl1).
    rewrite (proj2 (count_for_zero habit_id day_str l2) Hl2).
    pose proof (new_log_matches (next_oid d) habit_id p2
                  (t_now1 c2) (t_now2 c2)) as Hnew.
    apply (count_for_cons_hit _ _ _ []) in Hnew. exact Hnew.
Qed.

Lemma log_ids_ok_empty_db : log_ids_ok empty_db.
Proof. split; constructor. Qed.

Lemma log_ids_ok_one_log_db : log_ids_ok one_log_db.
Proof.
  split; simpl.
  - repeat constructor. intros [].
  - repeat constructor.
Qed.

Lemma toggle_log_twice_witness :
  (exists d2,
     toggle_many (Some empty_db) "h1" jan1 [call 1 10 11; call 1 20 21]
     = ([Return {| checked := true |}; Return {| checked := false |}],
        Some d2)
     /\ habitlog d2 = habitlog empty_db)
  /\ (exists d2,
        toggle_many (Some one_log_db) "h1" jan1 [call 7 10 11; call 7 20 21]
        = ([Return {| checked := false |}; Return {| checked := true |}],
           Some d2)
        /\ count_for "h1" (isoformat jan1) (habitlog d2) = 1%nat).
Proof.
  split.
  - destruct (proj1 (toggle_log_twice empty_db "h1" jan1
                       (call 1 10 11) (call 1 20 21) log_ids_ok_empty_db)
                eq_refl) as (d2 & Ht & Hl & _).
    exists d2. split; assumption.
  - destruct (proj2 (toggle_log_twice one_log_db "h1" jan1
                       (call 7 10 11) (call 7 20 21) log_ids_ok_one_log_db)
                eq_refl) as (l1 & e & l2 & d2 & _ & _ & Ht & _ & _ & Hc).
    exists d2. split; assumption.
Defined.

(** C3. After any finite sequence of consecutive toggle calls for a fixed
    (habit id, day), starting from a store with at most one log of the
    pair, every call has answered and at most one log of the pair exists. *)
Theorem toggle_many_at_most_one calls : forall d habit_id dy,
  log_ids_ok d ->
  (count_for habit_id (isoformat dy) (habitlog d) <= 1)%nat ->
  exists d',
    snd (toggle_many (Some d) habit_id dy calls) = Some d'
    /\ (count_for habit_id (isoformat dy) (habitlog d') <= 1)%nat
    /\ log_ids_ok d'
    /\ List.length (fst (toggle_many (Some d) habit_id dy calls))
       = List.length calls
    /\ Forall (fun r => exists b, r = Return {| checked := b |})
              (fst (toggle_many (Some d) habit_id dy calls)).
Proof.
  induction calls as [|c calls IH]; intros d habit_id dy Hok Hle.
  - exists d. simpl.
    split; [reflexivity|]. split; [exact Hle|]. split; [exact Hok|].
    split; [reflexivity|constructor].
  - cbn [toggle_many].
    destruct (toggle_log_flip d habit_id (payload_of dy c)
                (t_now1 c) (t_now2 c) Hok Hle)
      as (b & d1 & Ht & Hok1 & _ & _ & Hc1).
    rewrite Ht. simpl in Hc1.
    assert (Hle1 : (count_for habit_id (isoformat dy) (habitlog d1) <= 1)%nat)
      by (rewrite Hc1; destruct b; lia).
    destruct (IH d1 habit_id dy Hok1 Hle1) as (d' & Hs & Hc & Hok' & Hlen & Hall).
    destruct (toggle_many (Some d1) habit_id dy calls) as [rs db2].
    cbn [fst snd] in *. exists d'.
    split; [exact Hs|]. split; [exact Hc|]. split; [exact Hok'|].
    split; [simpl; now rewrite Hlen|].
    constructor; [now exists b|exact Hall].
Qed.

Lemma toggle_many_at_most_one_witness :
  exists d',
    snd (toggle_many (Some empty_db) "h1" jan1
           [call 1 10 11; call 2 20 21; call 3 30 31])
    = Some d'
    /\ (count_for "h1" (isoformat jan1) (habitlog d') <= 1)%nat.
Proof.
  destruct (toggle_many_at_most_one
              [call 1 10 11; call 2 20 21; call 3 30 31]
              empty_db "h1" jan1 log_ids_ok_empty_db)
    as (d' & Hs & Hc & _).
  - unfold count_for. simpl. lia.
  - exists d'. split; assumption.
Defined.

(** ** Deleting a habit *)

Lemma with_habit_same d : with_habit (habit d) d = d.
Proof. now destruct d. Qed.

Lemma habit_id_misses oid (c : list habit_doc) :
  (forall h, In h c -> h_id h <> oid) ->
  forall x, In x c -> habit_matches (Some oid) x = false.
Proof. intros Hall x Hx. simpl. apply N.eqb_neq. now apply Hall. Qed.

(** C5. [delete_habit] raises 400 (invalid argument) when the id is not a
    well-formed object id, and 404 (not found) when it is well-formed but no
    habit has it; in both cases the store is left as it was. *)
Theorem delete_habit_failures `{BsonObjectId} d habit_id :
  (ObjectId_of_str habit_id = None ->
   delete_habit (Some d) habit_id
   = (Raise {| status_code := 400; detail := "Invalid ID format" |}, Some d))
  /\ (forall oid,
        ObjectId_of_str habit_id = Some oid ->
        (forall h, In h (habit d) -> h_id h <> oid) ->
        delete_habit (Some d) habit_id
        = (Raise {| status_code := 404; detail := "Habit not found" |},
           Some d)).
Proof.
  split.
  - intros Hbad. unfold delete_habit, _coerce_objectid. now rewrite Hbad.
  - intros oid Hoid Hnone. unfold delete_habit, _coerce_objectid.
    rewrite Hoid.
    rewrite (delete_one_absent _ _ (habit_id_misses oid _ Hnone)).
    simpl. now rewrite with_habit_same.
Qed.

Lemma delete_habit_failures_witness :
  @delete_habit hex_codec (Some habits_db) "not-an-id"
  = (Raise {| status_code := 400; detail := "Invalid ID format" |},
     Some habits_db)
  /\ @delete_habit hex_codec (Some habits_db) "000000000000000000000002"
     = (Raise {| status_code := 404; detail := "Habit not found" |},
        Some habits_db).
Proof.
  split.
  - apply (proj1 (@delete_habit_failures hex_codec habits_db "not-an-id")).
    reflexivity.
  - apply (proj2 (@delete_habit_failures hex_codec habits_db
                    "000000000000000000000002") 2%N).
    + reflexivity.
    + simpl. intros h [<-|[<-|[]]]; discriminate.
Defined.




Example delete_habit_cascade_run :
  @delete_habit hex_codec (Some habits_db) "000000000000000000000001"
  = (Return {| ok := true |},
     Some {| habit := [sample_habit 4 "Run" 6];
             habitlog := [sample_log 3 "000000000000000000000004"
                                     "2024-01-01" 1];
             next_oid := 6 |}).
Proof. reflexivity. Qed.

(** ** Querying logs *)

(** C6, the claim as stated fails when a bound is supplied as the empty
    string: with an empty [start] and [end = "2024-01-01"] both bounds are
    supplied, yet no range filter applies and the log of "2024-06-01", which
    lies outside the closed range, is returned. *)
Lemma get_logs_empty_bound_unfiltered :
  String.leb "2024-06-01" "2024-01-01" = false
  /\ @get_logs hex_codec (Some range_db) "h1"
               (Some EmptyString) (Some "2024-01-01"%string)
     = (Return [{| lo_id := "000000000000000000000007"; lo_habit_id := "h1";
                   lo_day := "2024-06-01"; lo_value := 1;
                   lo_created_at := 0; lo_updated_at := 0 |};
                {| lo_id := "000000000000000000000008"; lo_habit_id := "h1";
                   lo_day := "2024-01-01"; lo_value := 1;
                   lo_created_at := 0; lo_updated_at := 0 |}],
        Some range_db).
Proof. split; reflexivity. Qed.

(** C6, amended.  [get_logs habit_id start end] returns the logs whose
    [habit_id] equals the given id, in collection order; when both [start]
    and [end] are supplied and non-empty, only those with
    start <= day <= end in the bytewise order of strings; when a bound is
    missing or is the empty string, all logs of the habit (so a start
    without an end applies no filter). *)
Theorem get_logs_range `{BsonObjectId} d habit_id start end_ :
  (forall s e,
     start = Some s -> end_ = Some e -> s <> EmptyString -> e <> EmptyString ->
     get_logs (Some d) habit_id start end_
     = (Return (map LogOut_of_doc
                  (filter (fun l => String.eqb (l_habit_id l) habit_id
                                    && (String.leb s (l_day l)
                                        && String.leb (l_day l) e))
                          (habitlog d))),
        Some d))
  /\ (start = None \/ start = Some EmptyString
      \/ end_ = None \/ end_ = Some EmptyString ->
      get_logs (Some d) habit_id start end_
      = (Return (map LogOut_of_doc
                   (filter (fun l => String.eqb (l_habit_id l) habit_id)
                           (habitlog d))),
         Some d)).
Proof.
  split.
  - intros s e -> -> Hs He. unfold get_logs, find.
    destruct s as [|a s]; [congruence|]. destruct e as [|b e]; [congruence|].
    reflexivity.
  - intros Hmiss. unfold get_logs, find.
    assert (Hf : forall l, log_matches (habit_id_query habit_id) l
                           = String.eqb (l_habit_id l) habit_id)
      by apply habit_id_query_matches.
    destruct start as [[|a s]|], end_ as [[|b e]|]; simpl;
      try (do 3 f_equal; apply filter_ext; exact Hf).
    destruct Hmiss as [?|[?|[?|?]]]; discriminate.
Qed.

Lemma get_logs_range_witness :
  @get_logs hex_codec (Some range_db) "h1"
            (Some "2024-01-01"%string) (Some "2024-01-31"%string)
  = (Return [@LogOut_of_doc hex_codec (sample_log 8 "h1" "2024-01-01" 1)],
     Some range_db)
  /\ @get_logs hex_codec (Some range_db) "h1" (Some "2024-01-01"%string) None
     = (Return [@LogOut_of_doc hex_codec (sample_log 7 "h1" "2024-06-01" 1);
                @LogOut_of_doc hex_codec (sample_log 8 "h1" "2024-01-01" 1)],
        Some range_db).
Proof.
  split.
  - apply (proj1 (@get_logs_range hex_codec range_db "h1"
                    (Some "2024-01-01"%string) (Some "2024-01-31"%string))
             "2024-01-01"%string "2024-01-31"%string);
      try reflexivity; discriminate.
  - apply (proj2 (@get_logs_range hex_codec range_db "h1"
                    (Some "2024-01-01"%string) None)).
    right. right. left. reflexivity.
Defined.

(** ** Creating and listing habits *)

(** C8. [create_habit] accepts every payload, one with the empty string as
    name included: it stores the payload's fields under a generated id with
    the two clock readings as creation and update timestamps, and returns
    the payload's fields and the id as a string, no timestamps. *)
Theorem create_habit_stores `{BsonObjectId} d now1 now2 :
  (forall habit_in,
     create_habit (Some d) habit_in now1 now2
     = (Return {| fields := habit_in; id := str_of_ObjectId (next_oid d) |},
        Some {| habit := habit d
                  ++ [{| h_id := next_oid d; h_fields := habit_in;
                         h_created_at := now1; h_updated_at := now2 |}];
                habitlog := habitlog d;
                next_oid := N.succ (next_oid d) |}))
  /\ (forall descr col freq dows,
        exists out d',
          create_habit (Some d)
            {| name := EmptyString; description := descr; color := col;
               frequency := freq; days_of_week := dows |} now1 now2
          = (Return out, Some d')
          /\ name (fields out) = EmptyString
          /\ In (name (fields out)) (map (fun h => name (h_fields h)) (habit d'))).
Proof.
  split.
  - reflexivity.
  - intros descr col freq dows. do 2 eexists. split; [reflexivity|].
    simpl. split; [reflexivity|].
    rewrite map_app. apply in_or_app. right. now left.
Qed.

Lemma StronglySorted_snoc {A : Type} (R : A -> A -> Prop) l x :
  StronglySorted R (l ++ [x]) ->
  StronglySorted R l /\ Forall (fun y => R y x) l.
Proof.
  induction l as [|a l IH]; simpl; intros Hs.
  - split; constructor.
  - inversion Hs as [|? ? Hs' Hall]; subst.
    destruct (IH Hs') as [Hl Hx]. split.
    + constructor; [exact Hl|].
      apply Forall_app in Hall. tauto.
    + constructor; [|exact Hx].
      apply Forall_app in Hall. destruct Hall as [_ Hlast].
      now inversion Hlast.
Qed.

(** Documents appended in strictly increasing key order, each newer than
    the documents already there, come out first and reversed. *)
Lemma sort_desc_app {D : Type} (key : D -> Z) (c docs : list D) :
  StronglySorted (fun a b => key a < key b) docs ->
  (forall x y, In x c -> In y docs -> key x < key y) ->
  sort key (-1) (c ++ docs) = rev docs ++ sort key (-1) c.
Proof.
  induction docs as [|y docs IH] using rev_ind; intros Hs Hnew.
  - now rewrite app_nil_r.
  - apply StronglySorted_snoc in Hs. destruct Hs as [Hs Hy].
    rewrite app_assoc, sort_desc_snoc.
    + rewrite IH; [now rewrite rev_app_distr|exact Hs|].
      intros a b Ha Hb. apply Hnew; [exact Ha|].
      apply in_or_app. now left.
    + intros a Ha. apply in_app_or in Ha. destruct Ha as [Ha|Ha].
      * apply Hnew; [exact Ha|]. apply in_or_app. right. now left.
      * rewrite Forall_forall in Hy. now apply Hy.
Qed.

Lemma created_docs_times next calls :
  map h_created_at (created_docs next calls) = map c_now1 calls.
Proof.
  revert next. induction calls as [|c calls IH]; intros next; simpl;
    [reflexivity|]. now rewrite IH.
Qed.

Lemma created_docs_fields next calls :
  map h_fields (created_docs next calls) = map c_habit calls.
Proof.
  revert next. induction calls as [|c calls IH]; intros next; simpl;
    [reflexivity|]. now rewrite IH.
Qed.

Lemma created_docs_increasing next calls :
  StronglySorted Z.lt (map c_now1 calls) ->
  StronglySorted (fun a b => h_created_at a < h_created_at b)
                 (created_docs next calls).
Proof.
  revert next. induction calls as [|c calls IH]; intros next; simpl; intros Hs.
  - constructor.
  - inversion Hs as [|? ? Hs' Hall]; subst. constructor; [now apply IH|].
    rewrite Forall_forall in *. intros x Hx. simpl.
    apply Hall. rewrite <- (created_docs_times (N.succ next)).
    now apply in_map.
Qed.

Lemma create_many_spec `{BsonObjectId} calls : forall d,
  create_many (Some d) calls
  = (map (fun doc => Return (HabitOut_of_doc doc))
         (created_docs (next_oid d) calls),
     Some {| habit := habit d ++ created_docs (next_oid d) calls;
             habitlog := habitlog d;
             next_oid := next_oid d + N.of_nat (List.length calls) |}).
Proof.
  induction calls as [|c calls IH]; intros d.
  - destruct d as [h l n]. simpl. now rewrite app_nil_r, N.add_0_r.
  - cbn [create_many]. unfold create_habit, insert_one.
    rewrite IH. simpl. rewrite <- app_assoc. simpl.
    do 3 f_equal. lia.
Qed.

Lemma list_habits_sorted `{BsonObjectId} d :
  list_habits (Some d)
  = (Return (map HabitOut_of_doc (sort h_created_at (-1) (habit d))), Some d).
Proof.
  unfold list_habits, find. rewrite append_loop. simpl.
  rewrite filter_all; [reflexivity|]. reflexivity.
Qed.

(** C7, the claim as stated fails when the creation times do not grow:
    for A, B, C created in this order on the empty store at one and the
    same clock reading, or while the clock steps back, [list_habits]
    returns A, B, C. *)
Lemma list_habits_follows_timestamps :
  fst (@list_habits hex_codec
         (snd (@create_many hex_codec (Some empty_db) tie_calls)))
  = Return [ {| fields := mk_habit "A"; id := "000000000000000000000000" |};
             {| fields := mk_habit "B"; id := "000000000000000000000001" |};
             {| fields := mk_habit "C"; id := "000000000000000000000002" |} ]
  /\ fst (@list_habits hex_codec
            (snd (@create_many hex_codec (Some empty_db) back_calls)))
     = Return [ {| fields := mk_habit "A"; id := "000000000000000000000000" |};
                {| fields := mk_habit "B"; id := "000000000000000000000001" |};
                {| fields := mk_habit "C"; id := "000000000000000000000002" |} ].
Proof. split; reflexivity. Qed.

(** C7, amended.  [list_habits] returns all stored habits ordered by their
    stored [created_at], latest first: the result lists a permutation of the
    collection in non-increasing order of [created_at]; it is empty when
    there are no habits; and after habits are created one after the other on
    an empty collection, at strictly increasing creation times, it is the
    reverse of the creation order (for A, B, C: C, B, A). *)
Theorem list_habits_newest_first `{BsonObjectId} :
  (forall d, exists docs,
      Permutation docs (habit d) /\ newest_first docs
      /\ list_habits (Some d) = (Return (map HabitOut_of_doc docs), Some d))
  /\ (forall d, habit d = [] -> list_habits (Some d) = (Return [], Some d))
  /\ (forall d calls,
        habit d = [] ->
        StronglySorted Z.lt (map c_now1 calls) ->
        exists outs d',
          create_many (Some d) calls = (map Return outs, Some d')
          /\ map fields outs = map c_habit calls
          /\ list_habits (Some d') = (Return (rev outs), Some d')).
Proof.
  split; [|split].
  - intros d. exists (sort h_created_at (-1) (habit d)).
    split; [apply sort_perm|]. split; [apply sort_desc_sorted|].
    apply list_habits_sorted.
  - intros d Hempty. rewrite list_habits_sorted, Hempty. reflexivity.
  - intros d calls Hempty Hs.
    exists (map HabitOut_of_doc (created_docs (next_oid d) calls)).
    eexists. split; [|split].
    + rewrite create_many_spec, map_map. reflexivity.
    + rewrite map_map. simpl. apply created_docs_fields.
    + rewrite list_habits_sorted. simpl. rewrite Hempty. simpl.
      rewrite <- (app_nil_l (created_docs _ _)).
      rewrite sort_desc_app.
      * simpl. now rewrite app_nil_r, map_rev.
      * now apply created_docs_increasing.
      * intros x y [].
Qed.

Lemma list_habits_newest_first_witness :
  exists outs d',
    @create_many hex_codec (Some empty_db) abc_calls
    = (map Return outs, Some d')
    /\ map fields outs = [mk_habit "A"; mk_habit "B"; mk_habit "C"]
    /\ @list_habits hex_codec (Some d') = (Return (rev outs), Some d').
Proof.
  apply (proj2 (proj2 (@list_habits_newest_first hex_codec))
           empty_db abc_calls).
  - reflexivity.
  - simpl. repeat constructor; lia.
Defined.

Example list_habits_abc :
  fst (@list_habits hex_codec
         (snd (@create_many hex_codec (Some empty_db) abc_calls)))
  = Return [ {| fields := mk_habit "C"; id := "000000000000000000000002" |};
             {| fields := mk_habit "B"; id := "000000000000000000000001" |};
             {| fields := mk_habit "A"; id := "000000000000000000000000" |} ].
Proof. reflexivity. Qed.

(** ** No check of the habit id on the log endpoints *)

Lemma toggle_log_answers d habit_id payload now1 now2 :
  exists b d',
    toggle_log (Some d) habit_id payload now1 now2
    = (Return {| checked := b |}, Some d')
    /\ habit d' = habit d.
Proof.
  unfold toggle_log.
  destruct (find_one _ (habitlog d)) as [e|].
  - destruct (delete_one _ (habitlog d)) as [c n].
    exists false. eexists. split; reflexivity.
  - exists true. eexists. split; reflexivity.
Qed.

(** C9. [toggle_log] and [get_logs] neither validate the habit id nor look
    at the habit collection.  For every string [habit_id] and every store,
    whatever the habits in it: [toggle_log] answers without raising and, when
    the pair has no log yet, inserts a log keyed by that very string;
    [get_logs] answers without raising with the logs stored under that very
    string; and both behave the same when the habit collection is replaced
    by any other. *)
Theorem log_endpoints_skip_habit_check `{BsonObjectId}
    d habit_id payload now1 now2 start end_ :
  (exists b d',
     toggle_log (Some d) habit_id payload now1 now2
     = (Return {| checked := b |}, Some d'))
  /\ ((forall x, In x (habitlog d)
                 -> ~ for_pair habit_id (isoformat (day payload)) x) ->
      exists d' l,
        toggle_log (Some d) habit_id payload now1 now2
        = (Return {| checked := true |}, Some d')
        /\ habitlog d' = habitlog d ++ [l]
        /\ l_habit_id l = habit_id)
  /\ (exists logs,
        get_logs (Some d) habit_id start end_ = (Return logs, Some d)
        /\ Forall (fun l => lo_habit_id l = habit_id) logs)
  /\ get_logs (Some d) habit_id None None
     = (Return (map LogOut_of_doc
                  (filter (fun l => String.eqb (l_habit_id l) habit_id)
                          (habitlog d))),
        Some d)
  /\ (forall hs,
        fst (toggle_log (Some (with_habit hs d)) habit_id payload now1 now2)
        = fst (toggle_log (Some d) habit_id payload now1 now2)
        /\ option_map habitlog
             (snd (toggle_log (Some (with_habit hs d)) habit_id payload
                              now1 now2))
           = option_map habitlog
               (snd (toggle_log (Some d) habit_id payload now1 now2))
        /\ fst (get_logs (Some (with_habit hs d)) habit_id start end_)
           = fst (get_logs (Some d) habit_id start end_)).
Proof.
  split; [|split; [|split; [|split]]].
  - destruct (toggle_log_answers d habit_id payload now1 now2)
      as (b & d' & Ht & _). now exists b, d'.
  - intros Hnone. do 2 eexists. split; [|split].
    + apply toggle_log_absent. intros x Hx.
      apply pair_query_misses. now apply Hnone.
    + reflexivity.
    + reflexivity.
  - eexists. split; [reflexivity|].
    apply Forall_forall. intros lo Hlo.
    apply in_map_iff in Hlo. destruct Hlo as (l & <- & Hl).
    unfold find in Hl. apply filter_In in Hl. destruct Hl as [_ Hm].
    simpl. apply String.eqb_eq.
    apply log_matches_habit_id with (habit_id := habit_id) in Hm;
      [exact Hm|].
    destruct start as [s|], end_ as [e|]; try reflexivity.
    now destruct (truthy (Some s) && truthy (Some e)).
  - unfold get_logs, find. do 3 f_equal. apply filter_ext.
    apply habit_id_query_matches.
  - intros hs. split; [|split].
    + unfold toggle_log. simpl.
      destruct (find_one _ (habitlog d)); [|reflexivity].
      now destruct (delete_one _ (habitlog d)).
    + unfold toggle_log. simpl.
      destruct (find_one _ (habitlog d)); [|reflexivity].
      now destruct (delete_one _ (habitlog d)).
    + reflexivity.
Qed.

Lemma log_endpoints_skip_habit_check_witness :
  exists d' l,
    toggle_log (Some empty_db) "not-an-id" payload1 10 11
    = (Return {| checked := true |}, Some d')
    /\ habitlog d' = habitlog empty_db ++ [l]
    /\ l_habit_id l = "not-an-id"%string.
Proof.
  apply (proj1 (proj2 (@log_endpoints_skip_habit_check hex_codec empty_db
                         "not-an-id" payload1 10 11
                         None None))).
  intros x [].
Defined.

Example not_an_id_rejected_by_delete_only :
  @ObjectId_of_str hex_codec "not-an-id" = None
  /\ fst (@delete_habit hex_codec (Some empty_db) "not-an-id")
     = Raise {| status_code := 400; detail := "Invalid ID format" |}
  /\ fst (toggle_log (Some empty_db) "not-an-id" payload1 10 11)
     = Return {| checked := true |}
  /\ fst (@get_logs hex_codec
            (snd (toggle_log (Some empty_db) "not-an-id" payload1 10 11))
            "not-an-id" None None)
     = Return [{| lo_id := "000000000000000000000000";
                  lo_habit_id := "not-an-id"; lo_day := "2024-01-01";
                  lo_value := 1; lo_created_at := 10; lo_updated_at := 11 |}].
Proof. repeat split. Qed.

(** * Further properties of the handlers *)

(** ** Toggle and the other logs *)

Lemma other_pairs_app habit_id day_str c1 c2 :
  other_pairs habit_id day_str (c1 ++ c2)
  = other_pairs habit_id day_str c1 ++ other_pairs habit_id day_str c2.
Proof. unfold other_pairs. apply filter_app. Qed.

Lemma other_pairs_hit habit_id day_str e c :
  log_matches (pair_query habit_id day_str) e = true ->
  other_pairs habit_id day_str (e :: c) = other_pairs habit_id day_str c.
Proof. unfold other_pairs; simpl. now intros ->. Qed.

(** X1. A toggle of (habit id, day) never touches the habits nor the logs
    of any other pair: they are the same documents, in the same order,
    before and after, whichever branch the toggle takes. *)
Theorem toggle_log_keeps_other_pairs d habit_id payload now1 now2 r d' :
  NoDup (map l_id (habitlog d)) ->
  toggle_log (Some d) habit_id payload now1 now2 = (r, Some d') ->
  other_pairs habit_id (isoformat (day payload)) (habitlog d')
  = other_pairs habit_id (isoformat (day payload)) (habitlog d)
  /\ habit d' = habit d.
Proof.
  intros Hnd Ht.
  destruct (find_one
              (log_matches (pair_query habit_id (isoformat (day payload))))
              (habitlog d)) as [e|] eqn:Hf.
  - destruct (find_one_Some _ _ _ Hf) as (l1 & l2 & Hsplit & He & Hl1).
    rewrite (toggle_log_present d habit_id payload now1 now2 l1 e l2
               Hnd Hsplit Hl1 He) in Ht.
    inversion Ht; subst; simpl. split; [|reflexivity].
    rewrite Hsplit, !other_pairs_app, (other_pairs_hit _ _ _ _ He).
    reflexivity.
  - rewrite find_one_None in Hf.
    rewrite (toggle_log_absent d habit_id payload now1 now2 Hf) in Ht.
    inversion Ht; subst; simpl. split; [|reflexivity].
    rewrite other_pairs_app.
    rewrite (other_pairs_hit _ _ _ []
               (new_log_matches (next_oid d) habit_id payload now1 now2)).
    apply app_nil_r.
Qed.

Lemma toggle_log_keeps_other_pairs_witness :
  exists r d',
    toggle_log (Some two_days_db) "h1" payload1 10 11 = (r, Some d')
    /\ other_pairs "h1" (isoformat (day payload1)) (habitlog d')
       = [sample_log 4 "h1" "2024-01-02" 1].
Proof.
  assert (Hnd : NoDup (map l_id (habitlog two_days_db))).
  { simpl. repeat constructor; simpl; intuition discriminate. }
  do 2 eexists.
  assert (Ht : toggle_log (Some two_days_db) "h1" payload1 10 11
               = (Return {| checked := false |},
                  Some {| habit := [];
                          habitlog := [sample_log 4 "h1" "2024-01-02" 1];
                          next_oid := 6 |})) by reflexivity.
  split; [exact Ht|].
  rewrite (proj1 (toggle_log_keeps_other_pairs two_days_db "h1" payload1
                    10 11 _ _ Hnd Ht)).
  reflexivity.
Defined.

(** X2. When a log of the pair exists, the toggle's answer and the store
    afterwards depend neither on the payload's value nor on the clock:
    toggling off ignores them. *)
Theorem toggle_log_off_ignores_value d habit_id dy v v' a1 a2 b1 b2 :
  (exists x, In x (habitlog d) /\ for_pair habit_id (isoformat dy) x) ->
  toggle_log (Some d) habit_id {| day := dy; value := v |} a1 a2
  = toggle_log (Some d) habit_id {| day := dy; value := v' |} b1 b2.
Proof.
  intros (x & Hin & Hp). apply pair_query_matches in Hp.
  destruct (find_one_exists _ _ _ Hin Hp) as [e He].
  unfold toggle_log; simpl. unfold pair_query in He. now rewrite He.
Qed.

Lemma toggle_log_off_ignores_value_witness :
  toggle_log (Some one_log_db) "h1" {| day := jan1; value := 1 |} 10 11
  = toggle_log (Some one_log_db) "h1" {| day := jan1; value := 7 |} 20 21.
Proof.
  apply toggle_log_off_ignores_value.
  exists (sample_log 0 "h1" "2024-01-01" 1). split.
  - left. reflexivity.
  - split; reflexivity.
Defined.

(** ** The ids stay distinct *)

Lemma NoDup_map_filter {A B : Type} (f : A -> B) (p : A -> bool) l :
  NoDup (map f l) -> NoDup (map f (filter p l)).
Proof.
  induction l as [|a l IH]; simpl; intros Hnd; [constructor|].
  inversion Hnd as [|? ? Hnotin Hnd']; subst.
  destruct (p a); simpl; [|now apply IH].
  constructor; [|now apply IH].
  intros Hin. apply Hnotin. apply in_map_iff in Hin.
  destruct Hin as (x & Hx & Hin). apply filter_In in Hin.
  rewrite <- Hx. apply in_map. tauto.
Qed.

Lemma Forall_filter {A : Type} (P : A -> Prop) (p : A -> bool) l :
  Forall P l -> Forall P (filter p l).
Proof.
  intros Hall. rewrite Forall_forall in *. intros x Hx.
  apply filter_In in Hx. now apply Hall.
Qed.

Lemma toggle_log_keeps_log_ids_ok d habit_id payload now1 now2 r d' :
  log_ids_ok d ->
  toggle_log (Some d) habit_id payload now1 now2 = (r, Some d') ->
  log_ids_ok d' /\ habit d' = habit d
  /\ (next_oid d <= next_oid d')%N.
Proof.
  intros Hok Ht.
  destruct (find_one
              (log_matches (pair_query habit_id (isoformat (day payload))))
              (habitlog d)) as [e|] eqn:Hf.
  - destruct (find_one_Some _ _ _ Hf) as (l1 & l2 & Hsplit & He & Hl1).
    rewrite (toggle_log_present d habit_id payload now1 now2 l1 e l2
               (proj1 Hok) Hsplit Hl1 He) in Ht.
    inversion Ht; subst; simpl.
    split; [now apply (log_ids_ok_remove d l1 e l2)|].
    split; [reflexivity|lia].
  - rewrite find_one_None in Hf.
    rewrite (toggle_log_absent d habit_id payload now1 now2 Hf) in Ht.
    inversion Ht; subst; simpl.
    split; [now apply log_ids_ok_insert|]. split; [reflexivity|lia].
Qed.

(** X3. The handlers that write to the store keep the ids in order: if in
    both collections the ids are distinct and were issued by the generator,
    the same holds after [create_habit], after [delete_habit] (whether it
    succeeds or raises) and after [toggle_log]. *)
Theorem handlers_keep_ids_ok `{BsonObjectId} d :
  ids_ok d ->
  (forall habit_in now1 now2 r d',
     create_habit (Some d) habit_in now1 now2 = (r, Some d') -> ids_ok d')
  /\ (forall habit_id r d',
        delete_habit (Some d) habit_id = (r, Some d') -> ids_ok d')
  /\ (forall habit_id payload now1 now2 r d',
        toggle_log (Some d) habit_id payload now1 now2 = (r, Some d') ->
        ids_ok d').
Proof.
  intros (Hnd & Hlt & Hlnd & Hllt). split; [|split].
  - intros habit_in now1 now2 r d' Hc.
    unfold create_habit, insert_one in Hc. inversion Hc; subst; clear Hc.
    unfold ids_ok, log_ids_ok; simpl. split; [|split; [|split]].
    + rewrite map_app; simpl.
      apply Permutation_NoDup with (l := next_oid d :: map h_id (habit d));
        [apply Permutation_cons_append|].
      constructor; [|exact Hnd].
      intros Hin. apply in_map_iff in Hin. destruct Hin as (x & Hx & Hin).
      rewrite Forall_forall in Hlt. specialize (Hlt x Hin). lia.
    + apply Forall_app. split.
      * eapply Forall_impl; [|exact Hlt]. simpl. intros; lia.
      * constructor; [simpl; lia|constructor].
    + exact Hlnd.
    + eapply Forall_impl; [|exact Hllt]. simpl. intros; lia.
  - intros habit_id r d' Hdel. unfold delete_habit, _coerce_objectid in Hdel.
    destruct (ObjectId_of_str habit_id) as [oid|].
    2:{ inversion Hdel; subst. repeat split; assumption. }
    destruct (find_one (habit_matches (Some oid)) (habit d)) as [e|] eqn:Hf.
    + destruct (find_one_Some _ _ _ Hf) as (l1 & l2 & Hsplit & He & Hl1).
      rewrite Hsplit, (delete_one_first _ _ _ _ Hl1 He) in Hdel.
      simpl in Hdel. inversion Hdel; subst; clear Hdel.
      unfold ids_ok, log_ids_ok; simpl. rewrite Hsplit in Hnd, Hlt.
      split; [|split; [|split]].
      * rewrite map_app in *. simpl in Hnd. now apply NoDup_remove_1 in Hnd.
      * apply Forall_app in Hlt. destruct Hlt as [H1 H2].
        apply Forall_app. split; [exact H1|]. now inversion H2.
      * now apply NoDup_map_filter.
      * now apply Forall_filter.
    + rewrite find_one_None in Hf.
      rewrite (delete_one_absent _ _ Hf) in Hdel. simpl in Hdel.
      inversion Hdel; subst. rewrite with_habit_same.
      repeat split; assumption.
  - intros habit_id payload now1 now2 r d' Ht.
    destruct (toggle_log_keeps_log_ids_ok d habit_id payload now1 now2 r d'
                (conj Hlnd Hllt) Ht) as (Hok' & Hh & Hle).
    unfold ids_ok. rewrite Hh. split; [exact Hnd|]. split; [|exact Hok'].
    eapply Forall_impl; [|exact Hlt]. simpl. intros; lia.
Qed.

Lemma ids_ok_habits_db : ids_ok habits_db.
Proof.
  unfold ids_ok, log_ids_ok; simpl.
  repeat split; repeat constructor; simpl; intuition discriminate.
Qed.

Lemma handlers_keep_ids_ok_witness :
  exists d1 d2 d3,
    snd (@create_habit hex_codec (Some habits_db) (mk_habit "Walk") 7 8)
    = Some d1 /\ ids_ok d1
    /\ snd (@delete_habit hex_codec (Some habits_db)
              "000000000000000000000001") = Some d2 /\ ids_ok d2
    /\ snd (toggle_log (Some habits_db) "000000000000000000000004"
              payload1 7 8) = Some d3 /\ ids_ok d3.
Proof.
  destruct (@handlers_keep_ids_ok hex_codec habits_db ids_ok_habits_db)
    as (Hc & Hd & Ht).
  do 3 eexists.
  split; [reflexivity|].
  split; [eapply (Hc (mk_habit "Walk") 7 8); reflexivity|].
  split; [reflexivity|].
  split; [eapply (Hd "000000000000000000000001"%string); reflexivity|].
  split; [reflexivity|].
  eapply (Ht "000000000000000000000004"%string payload1 7 8); reflexivity.
Defined.

(** ** Sequences of toggles *)

Lemma list_pair_ind {A : Type} (P : list A -> Prop) :
  P [] -> (forall a, P [a]) -> (forall a b l, P l -> P (a :: b :: l)) ->
  forall l, P l.
Proof.
  intros H0 H1 H2 l.
  assert (H : P l /\ forall a, P (a :: l)).
  { induction l as [|b l [IHl IHc]].
    - split; [exact H0|exact H1].
    - split; [apply IHc|]. intros a. now apply H2. }
  apply H.
Qed.

Lemma toggle_many_app calls1 : forall db habit_id dy calls2,
  toggle_many db habit_id dy (calls1 ++ calls2)
  = (fst (toggle_many db habit_id dy calls1)
     ++ fst (toggle_many (snd (toggle_many db habit_id dy calls1))
                         habit_id dy calls2),
     snd (toggle_many (snd (toggle_many db habit_id dy calls1))
                      habit_id dy calls2)).
Proof.
  induction calls1 as [|c calls1 IH]; intros db habit_id dy calls2.
  - simpl. now destruct (toggle_many db habit_id dy calls2).
  - cbn [toggle_many app].
    destruct (toggle_log db habit_id (payload_of dy c) (t_now1 c) (t_now2 c))
      as [r db1].
    rewrite IH.
    destruct (toggle_many db1 habit_id dy calls1) as [rs db2].
    reflexivity.
Qed.

(** Two toggles on a store without a log of the pair. *)
Lemma toggle_pair_restores d habit_id dy c1 c2 :
  log_ids_ok d ->
  count_for habit_id (isoformat dy) (habitlog d) = 0%nat ->
  toggle_many (Some d) habit_id dy [c1; c2]
  = ([Return {| checked := true |}; Return {| checked := false |}],
     Some {| habit := habit d; habitlog := habitlog d;
             next_oid := N.succ (next_oid d) |}).
Proof.
  intros Hok Hc.
  pose proof (proj1 (count_for_zero _ _ _) Hc) as Hnone.
  cbn [toggle_many].
  rewrite (toggle_log_absent d habit_id (payload_of dy c1) _ _ Hnone).
  rewrite (toggle_log_present _ habit_id (payload_of dy c2) _ _
             (habitlog d)
             (new_log (next_oid d) habit_id (payload_of dy c1)
                      (t_now1 c1) (t_now2 c1)) []).
  - simpl. now rewrite app_nil_r.
  - apply (log_ids_ok_insert d _ Hok). reflexivity.
  - reflexivity.
  - exact Hnone.
  - apply (new_log_matches _ _ (payload_of dy c1)).
Qed.

Lemma log_ids_ok_next d :
  log_ids_ok d ->
  log_ids_ok {| habit := habit d; habitlog := habitlog d;
                next_oid := N.succ (next_oid d) |}.
Proof.
  intros [Hnd Hlt]. split; simpl; [exact Hnd|].
  eapply Forall_impl; [|exact Hlt]. simpl. intros; lia.
Qed.

(** X4. Consecutive toggles of one (habit id, day) on a store without a log
    of the pair answer [true], [false], [true], ... in turn.  After an even
    number of calls the log collection is exactly what it was; after an odd
    number it has one more record, a log of the pair carrying the value and
    the creation time of the last call. *)
Theorem toggle_many_parity calls : forall d habit_id dy,
  log_ids_ok d ->
  count_for habit_id (isoformat dy) (habitlog d) = 0%nat ->
  exists d',
    toggle_many (Some d) habit_id dy calls
    = (alternating true (List.length calls), Some d')
    /\ log_ids_ok d'
    /\ habit d' = habit d
    /\ (Nat.even (List.length calls) = true -> habitlog d' = habitlog d)
    /\ (Nat.even (List.length calls) = false ->
        exists front c l,
          calls = front ++ [c]
          /\ habitlog d' = habitlog d ++ [l]
          /\ for_pair habit_id (isoformat dy) l
          /\ l_value l = t_value c
          /\ l_created_at l = t_now1 c).
Proof.
  induction calls as [|c|c1 c2 calls IH] using list_pair_ind;
    intros d habit_id dy Hok Hc.
  - exists d. simpl. repeat split; try apply Hok. discriminate.
  - pose proof (proj1 (count_for_zero _ _ _) Hc) as Hnone.
    eexists. cbn [toggle_many].
    rewrite (toggle_log_absent d habit_id (payload_of dy c) _ _ Hnone).
    simpl. split; [reflexivity|].
    split; [now apply log_ids_ok_insert|]. split; [reflexivity|].
    split; [discriminate|]. intros _.
    exists [], c. eexists. split; [reflexivity|]. split; [reflexivity|].
    repeat split.
  - change (c1 :: c2 :: calls) with ([c1; c2] ++ calls).
    rewrite toggle_many_app, (toggle_pair_restores d habit_id dy c1 c2 Hok Hc).
    cbn [fst snd].
    destruct (IH {| habit := habit d; habitlog := habitlog d;
                    next_oid := N.succ (next_oid d) |} habit_id dy
                (log_ids_ok_next d Hok) Hc)
      as (d' & Ht & Hok' & Hh & Heven & Hodd).
    exists d'. rewrite Ht. cbn [fst snd]. split; [reflexivity|].
    split; [exact Hok'|]. split; [exact Hh|].
    split; [exact Heven|]. intros Hlen.
    destruct (Hodd Hlen) as (front & c & l & -> & Hl & Hp & Hv & Hcr).
    exists (c1 :: c2 :: front), c, l.
    split; [reflexivity|]. split; [exact Hl|]. split; [exact Hp|].
    split; assumption.
Qed.

Lemma toggle_many_parity_witness :
  exists d',
    toggle_many (Some empty_db) "h1" jan1
                [call 1 10 11; call 2 20 21; call 3 30 31]
    = ([Return {| checked := true |}; Return {| checked := false |};
        Return {| checked := true |}], Some d')
    /\ exists l, habitlog d' = [l] /\ l_value l = 3.
Proof.
  destruct (toggle_many_parity [call 1 10 11; call 2 20 21; call 3 30 31]
              empty_db "h1" jan1 log_ids_ok_empty_db eq_refl)
    as (d' & Ht & _ & _ & _ & Hodd).
  exists d'. split; [exact Ht|].
  destruct (Hodd eq_refl) as (front & c & l & Hcalls & Hl & _ & Hv & _).
  exists l. split; [exact Hl|].
  change [call 1 10 11; call 2 20 21; call 3 30 31]
    with ([call 1 10 11; call 2 20 21] ++ [call 3 30 31]) in Hcalls.
  apply app_inj_tail in Hcalls.
  destruct Hcalls as [_ <-]. exact Hv.
Defined.

(** ** The order of strings *)

Lemma string_compare_refl s : String.compare s s = Eq.
Proof.
  induction s as [|a s IH]; simpl; [reflexivity|].
  unfold Ascii.compare. now rewrite N.compare_refl.
Qed.

Lemma string_leb_refl s : String.leb s s = true.
Proof. unfold String.leb. now rewrite string_compare_refl. Qed.

Lemma string_compare_not_Gt_trans s1 : forall s2 s3,
  String.compare s1 s2 <> Gt -> String.compare s2 s3 <> Gt ->
  String.compare s1 s3 <> Gt.
Proof.
  induction s1 as [|a s1 IH]; intros [|b s2] [|c s3]; simpl;
    try congruence.
  unfold Ascii.compare.
  destruct (N.compare_spec (N_of_ascii a) (N_of_ascii b)) as [Hab|Hab|Hab];
    destruct (N.compare_spec (N_of_ascii b) (N_of_ascii c)) as [Hbc|Hbc|Hbc];
    destruct (N.compare_spec (N_of_ascii a) (N_of_ascii c)) as [Hac|Hac|Hac];
    try congruence; try lia.
  apply IH.
Qed.

Lemma string_leb_trans s1 s2 s3 :
  String.leb s1 s2 = true -> String.leb s2 s3 = true ->
  String.leb s1 s3 = true.
Proof.
  unfold String.leb. intros H12 H23.
  pose proof (string_compare_not_Gt_trans s1 s2 s3) as Ht.
  destruct (String.compare s1 s2); try discriminate;
    destruct (String.compare s2 s3); try discriminate;
    destruct (String.compare s1 s3); try reflexivity;
    exfalso; apply Ht; congruence.
Qed.

Lemma string_ltb_not_leb s1 s2 :
  String.ltb s1 s2 = true -> String.leb s2 s1 = false.
Proof.
  unfold String.ltb, String.leb. rewrite (String.compare_antisym s2 s1).
  now destruct (String.compare s1 s2).
Qed.

Lemma isoformat_truthy dy : truthy (Some (isoformat dy)) = true.
Proof. reflexivity. Qed.

(** ** Toggle, then query *)

(** The filter of [get_logs] when both bounds are non-empty. *)
Lemma get_logs_bounded `{BsonObjectId} d habit_id s e :
  truthy (Some s) = true -> truthy (Some e) = true ->
  get_logs (Some d) habit_id (Some s) (Some e)
  = (Return (map LogOut_of_doc
               (filter (fun l => String.eqb (l_habit_id l) habit_id
                                 && (String.leb s (l_day l)
                                     && String.leb (l_day l) e))
                       (habitlog d))),
     Some d).
Proof.
  intros Hs He. unfold get_logs. rewrite Hs, He. reflexivity.
Qed.

(** X5. After a toggle that found no log of its pair, [get_logs] for the
    habit with both bounds equal to the day returns exactly one record: the
    new log, with the day, the payload's value and the generated id. *)
Theorem toggle_log_then_get_logs `{BsonObjectId}
    d habit_id payload now1 now2 :
  (forall x, In x (habitlog d)
             -> ~ for_pair habit_id (isoformat (day payload)) x) ->
  exists d',
    toggle_log (Some d) habit_id payload now1 now2
    = (Return {| checked := true |}, Some d')
    /\ get_logs (Some d') habit_id (Some (isoformat (day payload)))
                (Some (isoformat (day payload)))
       = (Return [{| lo_id := str_of_ObjectId (next_oid d);
                     lo_habit_id := habit_id;
                     lo_day := isoformat (day payload);
                     lo_value := value payload;
                     lo_created_at := now1; lo_updated_at := now2 |}],
          Some d').
Proof.
  intros Hnone. eexists. split.
  - apply toggle_log_absent. intros x Hx.
    apply pair_query_misses. now apply Hnone.
  - rewrite get_logs_bounded by apply isoformat_truthy.
    simpl habitlog. rewrite filter_app, filter_none.
    + simpl. rewrite String.eqb_refl, string_leb_refl. reflexivity.
    + intros x Hx. apply not_true_is_false. intros Hm.
      apply andb_true_iff in Hm. destruct Hm as [Hh Hr].
      apply andb_true_iff in Hr. destruct Hr as [H1 H2].
      apply (Hnone x Hx). split; [now apply String.eqb_eq|].
      now apply String.leb_antisym.
Qed.

Lemma toggle_log_then_get_logs_witness :
  exists d',
    toggle_log (Some empty_db) "h1" payload1 10 11
    = (Return {| checked := true |}, Some d')
    /\ @get_logs hex_codec (Some d') "h1" (Some "2024-01-01"%string)
                 (Some "2024-01-01"%string)
       = (Return [{| lo_id := "000000000000000000000000";
                     lo_habit_id := "h1"; lo_day := "2024-01-01";
                     lo_value := 1;
                     lo_created_at := 10; lo_updated_at := 11 |}],
          Some d').
Proof.
  apply (@toggle_log_then_get_logs hex_codec empty_db "h1" payload1 10 11).
  intros x [].
Defined.

(** X10. With a non-empty end bound that is strictly before the start
    bound, [get_logs] returns the empty sequence, whatever the store holds. *)
Theorem get_logs_inverted_bounds `{BsonObjectId} d habit_id s e :
  e <> EmptyString ->
  String.ltb e s = true ->
  get_logs (Some d) habit_id (Some s) (Some e) = (Return [], Some d).
Proof.
  intros He Hlt. pose proof (string_ltb_not_leb e s Hlt) as Hle.
  assert (Hs : truthy (Some s) = true).
  { destruct s; [|reflexivity]. now destruct e. }
  assert (He' : truthy (Some e) = true)
    by (destruct e; [congruence|reflexivity]).
  rewrite (get_logs_bounded d habit_id s e Hs He').
  rewrite filter_none; [reflexivity|].
  intros x _. apply not_true_is_false. intros Hm.
  apply andb_true_iff in Hm. destruct Hm as [_ Hr].
  apply andb_true_iff in Hr. destruct Hr as [H1 H2].
  rewrite (string_leb_trans _ _ _ H1 H2) in Hle. discriminate.
Qed.

Lemma get_logs_inverted_bounds_witness :
  @get_logs hex_codec (Some range_db) "h1" (Some "2024-12-31"%string)
            (Some "2024-01-01"%string)
  = (Return [], Some range_db).
Proof. apply get_logs_inverted_bounds; [discriminate|reflexivity]. Defined.

(** ** Creating, listing and deleting habits together *)

(** X6. A habit just created is listed: the listing after [create_habit]
    holds the returned habit, and is otherwise the listing from before
    (as a permutation). *)
Theorem create_habit_then_list `{BsonObjectId} d habit_in now1 now2 :
  exists out d' outs outs',
    create_habit (Some d) habit_in now1 now2 = (Return out, Some d')
    /\ list_habits (Some d) = (Return outs, Some d)
    /\ list_habits (Some d') = (Return outs', Some d')
    /\ In out outs'
    /\ Permutation outs' (out :: outs).
Proof.
  do 4 eexists. split; [reflexivity|].
  split; [apply list_habits_sorted|]. split; [apply list_habits_sorted|].
  simpl habit.
  set (doc := {| h_id := next_oid d; h_fields := habit_in;
                 h_created_at := now1; h_updated_at := now2 |}).
  assert (Hp : Permutation
                 (map HabitOut_of_doc
                      (sort h_created_at (-1) (habit d ++ [doc])))
                 (HabitOut_of_doc doc
                  :: map HabitOut_of_doc (sort h_created_at (-1) (habit d)))).
  { change (HabitOut_of_doc doc
            :: map HabitOut_of_doc (sort h_created_at (-1) (habit d)))
      with (map HabitOut_of_doc (doc :: sort h_created_at (-1) (habit d))).
    apply Permutation_map.
    rewrite !sort_perm. symmetry. apply Permutation_cons_append. }
  split; [|exact Hp].
  apply (Permutation_in _ (Permutation_sym Hp)). now left.
Qed.

(** What a successful [delete_habit] did. *)
Lemma delete_habit_ok_inv `{BsonObjectId} d habit_id r d' :
  delete_habit (Some d) habit_id = (Return r, Some d') ->
  exists oid l1 e l2,
    ObjectId_of_str habit_id = Some oid
    /\ habit d = l1 ++ e :: l2
    /\ h_id e = oid
    /\ (forall x, In x l1 -> h_id x <> oid)
    /\ d' = {| habit := l1 ++ l2;
               habitlog := filter (fun l => negb (log_matches
                                                    (habit_id_query habit_id) l))
                                  (habitlog d);
               next_oid := next_oid d |}.
Proof.
  unfold delete_habit, _coerce_objectid.
  destruct (ObjectId_of_str habit_id) as [oid|]; [|discriminate].
  destruct (find_one (habit_matches (Some oid)) (habit d)) as [e|] eqn:Hf.
  - destruct (find_one_Some _ _ _ Hf) as (l1 & l2 & Hsplit & He & Hl1).
    rewrite Hsplit, (delete_one_first _ _ _ _ Hl1 He). simpl.
    intros Heq. inversion Heq; subst.
    exists oid, l1, e, l2. split; [reflexivity|]. split; [reflexivity|].
    split; [now apply N.eqb_eq in He|].
    split; [|reflexivity].
    intros x Hx. apply N.eqb_neq. now apply (Hl1 x).
  - rewrite find_one_None in Hf. rewrite (delete_one_absent _ _ Hf).
    simpl. discriminate.
Qed.

Lemma delete_habit_not_found `{BsonObjectId} d habit_id oid :
  ObjectId_of_str habit_id = Some oid ->
  (forall h, In h (habit d) -> h_id h <> oid) ->
  delete_habit (Some d) habit_id
  = (Raise {| status_code := 404; detail := "Habit not found" |}, Some d).
Proof.
  intros Hoid Hnone. unfold delete_habit, _coerce_objectid. rewrite Hoid.
  rewrite (delete_one_absent _ _ (habit_id_misses oid _ Hnone)).
  simpl. now rewrite with_habit_same.
Qed.

(** X7. Creating a habit and deleting it under the returned id gives the
    habit collection back as it was, provided the ids in it were issued by
    the generator and the id survives the round trip through its string.
    The logs keyed by that id string are removed, the others are kept. *)
Theorem create_then_delete_habit `{BsonObjectId} d habit_in now1 now2 :
  Forall (fun h => (h_id h < next_oid d)%N) (habit d) ->
  ObjectId_of_str (str_of_ObjectId (next_oid d)) = Some (next_oid d) ->
  exists out d1 d2,
    create_habit (Some d) habit_in now1 now2 = (Return out, Some d1)
    /\ delete_habit (Some d1) (id out) = (Return {| ok := true |}, Some d2)
    /\ habit d2 = habit d
    /\ habitlog d2
       = filter (fun l => negb (String.eqb (l_habit_id l) (id out)))
                (habitlog d)
    /\ ((forall l, In l (habitlog d) -> l_habit_id l <> id out) ->
        habitlog d2 = habitlog d).
Proof.
  intros Hlt Hcodec. do 3 eexists. split; [reflexivity|].
  assert (Hmiss : forall x, In x (habit d) ->
                    habit_matches (Some (next_oid d)) x = false).
  { apply habit_id_misses. intros h Hh.
    rewrite Forall_forall in Hlt. specialize (Hlt h Hh). lia. }
  split.
  - unfold delete_habit, _coerce_objectid. simpl id. rewrite Hcodec.
    simpl habit. rewrite (delete_one_first _ _ _ _ Hmiss).
    + reflexivity.
    + simpl. apply N.eqb_refl.
  - simpl. split; [apply app_nil_r|].
    assert (Hfilt : filter (fun l => negb (log_matches
                              (habit_id_query (str_of_ObjectId (next_oid d)))
                              l)) (habitlog d)
                    = filter (fun l => negb (String.eqb (l_habit_id l)
                                (str_of_ObjectId (next_oid d))))
                             (habitlog d)).
    { apply filter_ext. intros l. now rewrite habit_id_query_matches. }
    split; [exact Hfilt|].
    intros Hnone. unfold habit_id_query in Hfilt. rewrite Hfilt.
    apply filter_all. intros l Hl.
    apply negb_true_iff, String.eqb_neq. now apply Hnone.
Qed.

Lemma create_then_delete_habit_witness :
  exists out d1 d2,
    @create_habit hex_codec (Some habits_db) (mk_habit "Walk") 7 8
    = (Return out, Some d1)
    /\ @delete_habit hex_codec (Some d1) (id out)
       = (Return {| ok := true |}, Some d2)
    /\ habit d2 = habit habits_db.
Proof.
  destruct (@create_then_delete_habit hex_codec habits_db
              (mk_habit "Walk") 7 8)
    as (out & d1 & d2 & Hc & Hd & Hh & _).
  - simpl. repeat constructor.
  - reflexivity.
  - exists out, d1, d2. repeat split; assumption.
Defined.

(** X8. A habit is deleted once: with distinct habit ids, repeating a
    successful [delete_habit] raises 404 and leaves the store as the first
    call left it. *)
Theorem delete_habit_twice `{BsonObjectId} d habit_id d' :
  NoDup (map h_id (habit d)) ->
  delete_habit (Some d) habit_id = (Return {| ok := true |}, Some d') ->
  delete_habit (Some d') habit_id
  = (Raise {| status_code := 404; detail := "Habit not found" |}, Some d').
Proof.
  intros Hnd Hdel.
  destruct (delete_habit_ok_inv _ _ _ _ Hdel)
    as (oid & l1 & e & l2 & Hoid & Hsplit & He & Hl1 & ->).
  apply (delete_habit_not_found _ _ oid Hoid). simpl.
  intros h Hh Heq. rewrite Hsplit, map_app in Hnd. simpl in Hnd.
  apply NoDup_remove_2 in Hnd. apply Hnd.
  rewrite He, <- Heq, <- map_app. now apply in_map.
Qed.

Lemma delete_habit_twice_witness :
  exists d',
    @delete_habit hex_codec (Some habits_db) "000000000000000000000001"
    = (Return {| ok := true |}, Some d')
    /\ @delete_habit hex_codec (Some d') "000000000000000000000001"
       = (Raise {| status_code := 404; detail := "Habit not found" |},
          Some d').
Proof.
  eexists. split; [reflexivity|].
  apply (@delete_habit_twice hex_codec habits_db).
  - apply ids_ok_habits_db.
  - reflexivity.
Defined.

(** X9. Right after a successful [delete_habit habit_id], a toggle with
    the same id string finds no log, answers [true] and stores a log under
    that string, which [get_logs] for that string then returns as the only
    one; no habit is created. *)
Theorem delete_habit_then_toggle `{BsonObjectId}
    d habit_id d1 payload now1 now2 :
  delete_habit (Some d) habit_id = (Return {| ok := true |}, Some d1) ->
  exists d2,
    toggle_log (Some d1) habit_id payload now1 now2
    = (Return {| checked := true |}, Some d2)
    /\ habit d2 = habit d1
    /\ get_logs (Some d2) habit_id None None
       = (Return [LogOut_of_doc
                    (new_log (next_oid d) habit_id payload now1 now2)],
          Some d2).
Proof.
  intros Hdel.
  destruct (delete_habit_ok_inv _ _ _ _ Hdel)
    as (oid & l1 & e & l2 & Hoid & Hsplit & He & Hl1 & ->).
  assert (Hgone : forall x,
            In x (filter (fun l => negb (log_matches
                                           (habit_id_query habit_id) l))
                         (habitlog d)) ->
            log_matches (habit_id_query habit_id) x = false).
  { intros x Hx. apply filter_In in Hx. now apply negb_true_iff. }
  eexists. split; [|split].
  - apply toggle_log_absent. simpl. intros x Hx.
    apply not_true_is_false. intros Hm.
    apply log_matches_habit_id with (habit_id := habit_id) in Hm;
      [|reflexivity].
    specialize (Hgone x Hx). rewrite habit_id_query_matches in Hgone.
    congruence.
  - reflexivity.
  - unfold get_logs, find. simpl habitlog.
    rewrite filter_app.
    rewrite (filter_none
               (log_matches {| q_id := None; q_habit_id := Some habit_id;
                               q_day := None |}) _ Hgone).
    unfold log_matches. simpl. rewrite String.eqb_refl. reflexivity.
Qed.

Lemma delete_habit_then_toggle_witness :
  exists d1 d2,
    @delete_habit hex_codec (Some habits_db) "000000000000000000000001"
    = (Return {| ok := true |}, Some d1)
    /\ toggle_log (Some d1) "000000000000000000000001" payload1 10 11
       = (Return {| checked := true |}, Some d2)
    /\ habit d2 = [sample_habit 4 "Run" 6].
Proof.
  eexists.
  destruct (@delete_habit_then_toggle hex_codec habits_db
              "000000000000000000000001" _ payload1 10 11 eq_refl)
    as (d2 & Ht & Hh & _).
  exists d2. split; [reflexivity|]. split; [exact Ht|exact Hh].
Defined.

(** ** The diagnostic endpoint *)




(** X11. Whatever the store handle is or does, [test_database] reports
    [database_url] and [database_name] from the environment alone: "Set"
    when the variable holds a non-empty string, "Not Set" otherwise.  The
    values written earlier ("Configured", the handle's name) never reach
    the caller. *)
Theorem test_database_env_fields db getenv :
  database_url (test_database db getenv)
  = Some (if truthy (getenv "DATABASE_URL"%string)
          then "✅ Set"%string else "❌ Not Set"%string)
  /\ database_name (test_database db getenv)
     = Some (if truthy (getenv "DATABASE_NAME"%string)
             then "✅ Set"%string else "❌ Not Set"%string)
  /\ (forall db',
        database_url (test_database db getenv)
        = database_url (test_database db' getenv)
        /\ database_name (test_database db getenv)
           = database_name (test_database db' getenv)).
Proof.
  assert (Hu : forall x,
            database_url (test_database x getenv)
            = Some (if truthy (getenv "DATABASE_URL"%string)
                    then "✅ Set"%string else "❌ Not Set"%string))
    by reflexivity.
  assert (Hn : forall x,
            database_name (test_database x getenv)
            = Some (if truthy (getenv "DATABASE_NAME"%string)
                    then "✅ Set"%string else "❌ Not Set"%string))
    by reflexivity.
  split; [apply Hu|]. split; [apply Hn|].
  intros db'. now rewrite !Hu, !Hn.
Qed.






(** Sixty two-byte characters: fifty of them, a hundred bytes, are kept. *)
Example first50_counts_characters :
  char_count (first50 (concat EmptyString (repeat "é"%string 60))) = 50%nat
  /\ String.length (first50 (concat EmptyString (repeat "é"%string 60)))
     = 100%nat.
Proof. split; reflexivity. Qed.

(** ** Days as strings *)

Lemma digit_value n : N_of_ascii (digit n) = (48 + n mod 10)%N.
Proof.
  unfold digit. apply N_ascii_embedding.
  assert (n mod 10 < 10)%N by (apply N.mod_lt; lia). lia.
Qed.

Lemma digit_compare a b :
  Ascii.compare (digit a) (digit b) = (a mod 10 ?= b mod 10)%N.
Proof.
  unfold Ascii.compare. rewrite !digit_value.
  destruct (N.compare_spec (a mod 10) (b mod 10));
    [apply N.compare_eq_iff|apply N.compare_lt_iff|apply N.compare_gt_iff];
    lia.
Qed.

(** Comparing two numbers is comparing their digits, the last one last. *)
Lemma compare_div10 a b :
  (a ?= b)%N = match (a / 10 ?= b / 10)%N with
               | Eq => (a mod 10 ?= b mod 10)%N
               | c => c
               end.
Proof.
  pose proof (N.div_mod a 10 ltac:(lia)) as Ha.
  pose proof (N.div_mod b 10 ltac:(lia)) as Hb.
  pose proof (N.mod_lt a 10 ltac:(lia)) as Ha'.
  pose proof (N.mod_lt b 10 ltac:(lia)) as Hb'.
  set (qa := (a / 10)%N) in *. set (qb := (b / 10)%N) in *.
  set (ra := (a mod 10)%N) in *. set (rb := (b mod 10)%N) in *.
  clearbody qa qb ra rb.
  destruct (N.compare_spec qa qb) as [Hq|Hq|Hq].
  - destruct (N.compare_spec ra rb);
      [apply N.compare_eq_iff|apply N.compare_lt_iff|apply N.compare_gt_iff];
      lia.
  - apply N.compare_lt_iff. lia.
  - apply N.compare_gt_iff. lia.
Qed.

Lemma small_mod10 a : (a < 10)%N -> (a mod 10 = a)%N.
Proof. apply N.mod_small. Qed.

Lemma div1000 x : (x / 1000 = x / 10 / 10 / 10)%N.
Proof. now rewrite !N.Div0.div_div. Qed.

Lemma div100 x : (x / 100 = x / 10 / 10)%N.
Proof. now rewrite !N.Div0.div_div. Qed.

Lemma append_nil_r s : String.append s EmptyString = s.
Proof. induction s; simpl; congruence. Qed.

Lemma compare_same_head c s t :
  String.compare (String c s) (String c t) = String.compare s t.
Proof. simpl. unfold Ascii.compare. now rewrite N.compare_refl. Qed.

Lemma pad2_compare a b s t :
  (a < 100)%N -> (b < 100)%N ->
  String.compare (String.append (pad2 a) s) (String.append (pad2 b) t)
  = match (a ?= b)%N with Eq => String.compare s t | c => c end.
Proof.
  intros Ha Hb. unfold pad2. simpl.
  rewrite !digit_compare, (compare_div10 a b).
  rewrite !small_mod10 by (apply N.Div0.div_lt_upper_bound; lia).
  destruct (a / 10 ?= b / 10)%N; reflexivity.
Qed.

Lemma pad4_compare a b s t :
  (a < 10000)%N -> (b < 10000)%N ->
  String.compare (String.append (pad4 a) s) (String.append (pad4 b) t)
  = match (a ?= b)%N with Eq => String.compare s t | c => c end.
Proof.
  intros Ha Hb. unfold pad4, pad2. simpl.
  rewrite !digit_compare.
  rewrite (small_mod10 (a / 1000)) by (apply N.Div0.div_lt_upper_bound; lia).
  rewrite (small_mod10 (b / 1000)) by (apply N.Div0.div_lt_upper_bound; lia).
  rewrite !div1000, !div100.
  rewrite (compare_div10 a b), (compare_div10 (a / 10) (b / 10)),
          (compare_div10 (a / 10 / 10) (b / 10 / 10)).
  destruct (a / 10 / 10 / 10 ?= b / 10 / 10 / 10)%N; try reflexivity.
  destruct ((a / 10 / 10) mod 10 ?= (b / 10 / 10) mod 10)%N; try reflexivity.
  destruct ((a / 10) mod 10 ?= (b / 10) mod 10)%N; reflexivity.
Qed.

(** The day strings compare as the dates do, field by field. *)
Lemma isoformat_compare x y :
  date_in_range x -> date_in_range y ->
  String.compare (isoformat x) (isoformat y)
  = match (year x ?= year y)%N with
    | Eq => match (month x ?= month y)%N with
            | Eq => (dom x ?= dom y)%N
            | c => c
            end
    | c => c
    end.
Proof.
  intros (Hy & Hm & Hd) (Hy' & Hm' & Hd'). unfold isoformat.
  rewrite pad4_compare by lia.
  destruct (year x ?= year y)%N; try reflexivity.
  rewrite compare_same_head, pad2_compare by lia.
  destruct (month x ?= month y)%N; try reflexivity.
  rewrite compare_same_head.
  rewrite <- (append_nil_r (pad2 (dom x))), <- (append_nil_r (pad2 (dom y))).
  rewrite pad2_compare by lia.
  now destruct (dom x ?= dom y)%N.
Qed.

Lemma isoformat_leb x y :
  date_in_range x -> date_in_range y ->
  String.leb (isoformat x) (isoformat y) = date_leb x y.
Proof.
  intros Hx Hy. unfold String.leb, date_leb.
  rewrite (isoformat_compare x y Hx Hy).
  destruct (year x ?= year y)%N; try reflexivity.
  destruct (month x ?= month y)%N; reflexivity.
Qed.

Lemma isoformat_inj x y :
  date_in_range x -> date_in_range y ->
  isoformat x = isoformat y -> x = y.
Proof.
  intros Hx Hy Heq.
  pose proof (isoformat_compare x y Hx Hy) as Hc.
  rewrite Heq, string_compare_refl in Hc.
  destruct (N.compare_spec (year x) (year y)) as [Ey| |]; try discriminate.
  destruct (N.compare_spec (month x) (month y)) as [Em| |]; try discriminate.
  symmetry in Hc. apply N.compare_eq_iff in Hc.
  destruct x, y; simpl in *. congruence.
Qed.

(** X14. Days do not interfere: a toggle of one day leaves the logs that the
    same habit has for any other day exactly as they were. *)
Theorem toggle_log_other_day d habit_id payload now1 now2 r d' dy :
  date_in_range (day payload) -> date_in_range dy ->
  dy <> day payload ->
  NoDup (map l_id (habitlog d)) ->
  toggle_log (Some d) habit_id payload now1 now2 = (r, Some d') ->
  filter (log_matches (pair_query habit_id (isoformat dy))) (habitlog d')
  = filter (log_matches (pair_query habit_id (isoformat dy))) (habitlog d).
Proof.
  intros Hp Hdy Hneq Hnd Ht.
  assert (Hother : forall e,
            log_matches (pair_query habit_id (isoformat (day payload))) e
            = true ->
            log_matches (pair_query habit_id (isoformat dy)) e = false).
  { intros e He. apply pair_query_matches in He. destruct He as [_ He].
    apply pair_query_misses. intros [_ He']. apply Hneq.
    apply isoformat_inj; congruence. }
  destruct (find_one
              (log_matches (pair_query habit_id (isoformat (day payload))))
              (habitlog d)) as [e|] eqn:Hf.
  - destruct (find_one_Some _ _ _ Hf) as (l1 & l2 & Hsplit & He & Hl1).
    rewrite (toggle_log_present d habit_id payload now1 now2 l1 e l2
               Hnd Hsplit Hl1 He) in Ht.
    inversion Ht; subst; simpl.
    rewrite Hsplit, !filter_app. simpl. now rewrite (Hother e He).
  - rewrite find_one_None in Hf.
    rewrite (toggle_log_absent d habit_id payload now1 now2 Hf) in Ht.
    inversion Ht; subst; simpl.
    rewrite filter_app. simpl.
    rewrite (Hother _ (new_log_matches (next_oid d) habit_id payload
                                       now1 now2)).
    apply app_nil_r.
Qed.

Lemma toggle_log_other_day_witness :
  exists r d',
    toggle_log (Some two_days_db) "h1" payload1 10 11 = (r, Some d')
    /\ filter (log_matches
                 (pair_query "h1"
                    (isoformat {| year := 2024; month := 1; dom := 2 |})))
              (habitlog d')
       = [sample_log 4 "h1" "2024-01-02" 1].
Proof.
  do 2 eexists.
  assert (Ht : toggle_log (Some two_days_db) "h1" payload1 10 11
               = (Return {| checked := false |},
                  Some {| habit := [];
                          habitlog := [sample_log 4 "h1" "2024-01-02" 1];
                          next_oid := 6 |})) by reflexivity.
  split; [exact Ht|].
  assert (H1 : date_in_range (day payload1))
    by (unfold date_in_range; simpl; lia).
  assert (H2 : date_in_range {| year := 2024; month := 1; dom := 2 |})
    by (unfold date_in_range; simpl; lia).
  assert (H3 : {| year := 2024; month := 1; dom := 2 |} <> day payload1)
    by discriminate.
  assert (Hnd : NoDup (map l_id (habitlog two_days_db))).
  { simpl. repeat constructor; simpl; intuition discriminate. }
  rewrite (toggle_log_other_day two_days_db "h1" payload1 10 11 _ _
             {| year := 2024; month := 1; dom := 2 |} H1 H2 H3 Hnd Ht).
  reflexivity.
Defined.

(** X15. The range of [get_logs] follows the calendar: when no log of the
    pair existed, the toggle adds its new log to the answer of
    [get_logs habit_id start end], for bounds that are the day strings of
    two dates, exactly when the toggled day lies between those dates; the
    rest of the answer is unchanged. *)
Theorem toggle_log_then_get_logs_between `{BsonObjectId}
    d habit_id payload now1 now2 s e :
  date_in_range s -> date_in_range e -> date_in_range (day payload) ->
  (forall x, In x (habitlog d)
             -> ~ for_pair habit_id (isoformat (day payload)) x) ->
  exists outs d',
    get_logs (Some d) habit_id (Some (isoformat s)) (Some (isoformat e))
    = (Return outs, Some d)
    /\ toggle_log (Some d) habit_id payload now1 now2
       = (Return {| checked := true |}, Some d')
    /\ get_logs (Some d') habit_id (Some (isoformat s)) (Some (isoformat e))
       = (Return (outs
                  ++ if date_leb s (day payload) && date_leb (day payload) e
                     then [LogOut_of_doc
                             (new_log (next_oid d) habit_id payload
                                      now1 now2)]
                     else []),
          Some d').
Proof.
  intros Hs He Hp Hnone. do 2 eexists.
  split; [apply get_logs_bounded; apply isoformat_truthy|].
  split.
  - apply toggle_log_absent. intros x Hx.
    apply pair_query_misses. now apply Hnone.
  - rewrite get_logs_bounded by apply isoformat_truthy.
    simpl habitlog. rewrite filter_app, map_app. simpl.
    rewrite String.eqb_refl, !isoformat_leb by assumption. simpl.
    now destruct (date_leb s (day payload) && date_leb (day payload) e).
Qed.

Lemma toggle_log_then_get_logs_between_witness :
  exists outs d',
    @get_logs hex_codec (Some range_db) "h1"
      (Some (isoformat {| year := 2023; month := 12; dom := 31 |}))
      (Some (isoformat {| year := 2024; month := 2; dom := 1 |}))
    = (Return outs, Some range_db)
    /\ toggle_log (Some range_db) "h1"
         {| day := {| year := 2024; month := 1; dom := 15 |}; value := 1 |}
         10 11
       = (Return {| checked := true |}, Some d')
    /\ List.length outs = 1%nat.
Proof.
  destruct (@toggle_log_then_get_logs_between hex_codec range_db "h1"
              {| day := {| year := 2024; month := 1; dom := 15 |};
                 value := 1 |} 10 11
              {| year := 2023; month := 12; dom := 31 |}
              {| year := 2024; month := 2; dom := 1 |})
    as (outs & d' & Hg & Ht & _).
  - unfold date_in_range; simpl; lia.
  - unfold date_in_range; simpl; lia.
  - unfold date_in_range; simpl; lia.
  - simpl. intros x [<-|[<-|[<-|[]]]] [_ Hd]; discriminate.
  - exists outs, d'. split; [exact Hg|]. split; [exact Ht|].
    assert (Hv : @get_logs hex_codec (Some range_db) "h1"
                   (Some (isoformat {| year := 2023; month := 12; dom := 31 |}))
                   (Some (isoformat {| year := 2024; month := 2; dom := 1 |}))
                 = (Return [@LogOut_of_doc hex_codec
                              (sample_log 8 "h1" "2024-01-01" 1)],
                    Some range_db)) by reflexivity.
    rewrite Hv in Hg. inversion Hg. reflexivity.
Defined.

(** ** The example codec *)

(** As with [bytes.fromhex], whitespace between bytes is skipped, inside a
    byte it is an error, and a string of another length is refused. *)
Example hex_codec_whitespace :
  @ObjectId_of_str hex_codec "aa bb cc dd ee ff 00 11 " <> None
  /\ @ObjectId_of_str hex_codec "a a0000000000000000000000" = None
  /\ @ObjectId_of_str hex_codec "0000000000000000000001" = None
  /\ @ObjectId_of_str hex_codec "00000000000000000000000g" = None
  /\ @str_of_ObjectId hex_codec 255 = "0000000000000000000000ff"%string.
Proof. repeat split; discriminate. Qed.
